(** * chromosight: the plotting utilities

    A shallow embedding of [chromosight/utils/plotting.py].  The module
    renders contact maps through matplotlib's [pyplot] and writes them to
    disk.  Python objects live in a store and are passed by reference; the
    calls made to [pyplot] are recorded in the order in which the code makes
    them, and a small interpreter gives them the meaning [pyplot] gives them
    (a registry of open figures, the files written, the figures shown).
    Exceptions are results: a function either returns or raises, and the
    effects made before a raise stay. *)

From Stdlib Require Import ZArith List String Ascii Lia Bool.
From Stdlib Require Import PrimFloat FloatOps SpecFloat DecimalString.
From stdpp Require Import base list.

Local Open Scope string_scope.
Local Open Scope list_scope.

(** ** pathlib (POSIX flavour) *)

Module pathlib.

(** A path is its root ([""], ["/"] or ["//"]) and its components. *)
Record Path : Type := { root : string; names : list string }.

(** [s.split("/")] *)
Fixpoint split (s : string) : list string :=
  match s with
  | EmptyString => [EmptyString]
  | String c r =>
      if Ascii.eqb c "/" then EmptyString :: split r
      else match split r with
           | h :: t => String c h :: t
           | [] => [String c EmptyString]
           end
  end.

(** [s.lstrip("/")] *)
Fixpoint lstrip (s : string) : string :=
  match s with
  | String c r => if Ascii.eqb c "/" then lstrip r else s
  | EmptyString => EmptyString
  end.

(** A leading slash is the root; exactly two leading slashes are kept. *)
Definition splitroot (s : string) : string * string :=
  match s with
  | String c _ =>
      if Ascii.eqb c "/" then
        let rel := lstrip s in
        (if Nat.eqb (String.length s - String.length rel) 2 then "//" else "/", rel)
      else ("", s)
  | EmptyString => ("", s)
  end.

Definition is_name (x : string) : bool :=
  negb (String.eqb x "") && negb (String.eqb x ".").

(** [pathlib.Path(s)]: empty components and ["."] are dropped. *)
Definition of_str (s : string) : Path :=
  let '(r, rel) := splitroot s in
  {| root := r; names := List.filter is_name (split rel) |}.

(** [pathlib.Path()] *)
Definition cwd : Path := {| root := ""; names := [] |}.

(** [a / b]: a rooted right operand replaces the left one. *)
Definition joinpath (a b : Path) : Path :=
  if String.eqb (root b) "" then {| root := root a; names := names a ++ names b |}
  else b.

(** [str(p)] *)
Definition fspath (p : Path) : string :=
  match root p, names p with
  | EmptyString, [] => "."
  | r, ns => r ++ String.concat "/" ns
  end.

Fixpoint names_eqb (a b : list string) : bool :=
  match a, b with
  | [], [] => true
  | x :: a', y :: b' => String.eqb x y && names_eqb a' b'
  | _, _ => false
  end.

(** [a == b] on two paths *)
Definition eqb (a b : Path) : bool :=
  String.eqb (root a) (root b) && names_eqb (names a) (names b).

End pathlib.

(** ** Python values *)

(** The values that occur as frame names, positions, scores and labels:
    scalars, and [pathlib.Path] objects, which are path-like. *)
Inductive pyval : Type :=
| PyNone
| PyInt (z : Z)
| PyFloat (f : float)
| PyStr (s : string)
| PyPath (p : pathlib.Path).

Inductive exn : Type :=
| NameError (name : string)
| TypeError (what : string)
| AttributeError (attr : string)
| IndexError (what : string)
| ValueError (what : string)
| OverflowError (what : string)
| ImportError (msg : string)
| ModuleNotFoundError (msg : string)
| OSError (path : string)
| RuntimeError (msg : string).

(** A call either returns a value or raises. *)
Inductive outcome (A : Type) : Type :=
| Returned (a : A)
| Raised (e : exn).
Arguments Returned {A} a.
Arguments Raised {A} e.

(** [except ImportError] also catches the subclass [ModuleNotFoundError]. *)
Definition is_ImportError (e : exn) : bool :=
  match e with
  | ImportError _ | ModuleNotFoundError _ => true
  | _ => false
  end.

(** [x == n] for a float [x] and an int [n]: Python compares the exact
    values. *)
Definition float_eq_int (f : float) (n : Z) : bool :=
  match Prim2SF f with
  | S754_zero _ => (n =? 0)%Z
  | S754_finite s m e =>
      let v := if s then Z.neg m else Z.pos m in
      if (0 <=? e)%Z then (n =? v * 2 ^ e)%Z else (n * 2 ^ (- e) =? v)%Z
  | S754_infinity _ | S754_nan => false
  end.

(** [a == b] *)
Definition py_eq (a b : pyval) : bool :=
  match a, b with
  | PyNone, PyNone => true
  | PyInt x, PyInt y => (x =? y)%Z
  | PyFloat x, PyFloat y => PrimFloat.eqb x y
  | PyInt x, PyFloat y => float_eq_int y x
  | PyFloat x, PyInt y => float_eq_int x y
  | PyStr x, PyStr y => String.eqb x y
  | PyPath x, PyPath y => pathlib.eqb x y
  | _, _ => false
  end.

(** [a != b] *)
Definition py_ne (a b : pyval) : bool := negb (py_eq a b).

(** [float(n)]: the nearest double, [OverflowError] when there is none. *)
Definition int_to_float (n : Z) : outcome float :=
  let f := SF2Prim (binary_normalize prec emax n 0 false) in
  if PrimFloat.is_infinity f then Raised (OverflowError "int too large to convert to float")
  else Returned f.

(** [a + b] *)
Definition py_add (a b : pyval) : outcome pyval :=
  match a, b with
  | PyInt x, PyInt y => Returned (PyInt (x + y))
  | PyFloat x, PyFloat y => Returned (PyFloat (x + y))
  | PyInt x, PyFloat y =>
      match int_to_float x with
      | Returned fx => Returned (PyFloat (fx + y))
      | Raised e => Raised e
      end
  | PyFloat x, PyInt y =>
      match int_to_float y with
      | Returned fy => Returned (PyFloat (x + fy))
      | Raised e => Raised e
      end
  | PyStr x, PyStr y => Returned (PyStr (x ++ y))
  | _, _ => Raised (TypeError "unsupported operand type(s) for +")
  end.

(** [str(n)] for an int. *)
Definition str_of_int (n : Z) : string := NilZero.string_of_int (Z.to_int n).

(** ** The store *)

Abbreviation loc := nat (only parsing).

Abbreviation grid := (list (list float)) (only parsing).

(** numpy arrays of one or two dimensions. *)
Inductive ndarray : Type :=
| Array1 (v : list float)
| Array2 (g : grid).

(** One row of the patterns table: [bin1], [bin2], [score]. *)
Record pattern_row : Type := { bin1 : Z; bin2 : Z; score : float }.

(** A pattern record is a tuple. *)
Abbreviation record := (list pyval) (only parsing).

(** The cells a view shows of the array whose memory it shares, by their
    position in that array taken row after row, in one or two dimensions. *)
Inductive selection : Type :=
| Select1 (idx : list nat)
| Select2 (idx : list (list nat)).

(** The objects behind references.
    - [SparseMatrix] is a [scipy.sparse] matrix, whose [todense()] is a
      [numpy.matrix]; [SparseArray] is a [scipy.sparse] array, whose
      [todense()] is an [ndarray];
    - [NDArray] is a numpy array with memory of its own; [NDView] is a
      numpy array that shares the memory of the array behind [base]. *)
Inductive obj : Type :=
| ContactMap (mat : loc)
| SparseMatrix (csr : bool) (g : grid)
| NDArray (a : ndarray)
| DataFrame (rows : list pattern_row)
| Dict (items : list (pyval * list record))
| SparseArray (csr : bool) (g : grid)
| NDView (base : loc) (sel : selection).

(** ** pyplot *)

Module plt.

(** How the pixels of an image are derived from the data handed over:
    as they are, [** 0.15], or [np.log]. *)
Inductive scaling : Type := Raw | Power015 | Log.

(** The calls the module makes, with the arguments that vary.
    - [Plot_marker x y] is [plt.plot(x, y, "D", color="green", markersize=0.1)];
    - [Scatter_marker x y] is [plt.scatter(x, y, s=15, facecolors="none",
      edgecolors="blue")] on two scalars, [Scatter_points] the same on two
      columns;
    - [Plot_xy x y fmt] is [plt.plot(x, y, fmt)] and [Plot_y x] is [plt.plot(x)];
    - [Xlim lo hi] takes ints, [Ylim a b] stands for [plt.ylim(10 ** a, 10 ** b)];
    - [Close_all] is [plt.close("all")];
    - [Gca] is what a call that draws does first: it takes the current
      axes, which makes a figure when none is open.  It is recorded for a
      call that raises after that; a call that completes is recorded
      under its own name. *)
Inductive call : Type :=
| Imshow (data : grid) (how : scaling) (cmap : string)
| Title (label : pyval)
| Colorbar
| Plot_marker (x y : pyval)
| Scatter_marker (x y : pyval)
| Scatter_points (xs ys : list Z)
| Plot_xy (xs : list Z) (ys : ndarray) (fmt : string)
| Plot_y (ys : list Z)
| Xlabel (s : string)
| Ylabel (s : string)
| Xlim (lo hi : Z)
| Ylim (lo_exp hi_exp : Z)
| Loglog
| Savefig (fname : string) (format : option string)
| Close_all
| Show
| Gca.

Definition figure : Type := list call.

(** What pyplot holds: the open figures (the current one first), the
    files written and the figures shown on screen. *)
Record canvas : Type :=
  { open_figures : list figure;
    written : list (string * figure);
    displayed : list figure }.

Definition blank : canvas :=
  {| open_figures := []; written := []; displayed := [] |}.

(** Drawing goes to the current figure; one is made when none is open. *)
Definition draw (c : call) (figs : list figure) : list figure :=
  match figs with
  | [] => [[c]]
  | f :: rest => (f ++ [c]) :: rest
  end.

Definition gcf (figs : list figure) : list figure :=
  match figs with
  | [] => [[]]
  | _ => figs
  end.

(** [blocking] tells the backend: a blocking GUI returns from [show] once
    every window was closed, which unregisters the figures; a
    non-interactive backend returns at once and keeps them. *)
Definition step (blocking : bool) (cv : canvas) (c : call) : canvas :=
  match c with
  | Savefig fname _ =>
      let figs := gcf (open_figures cv) in
      {| open_figures := figs;
         written := written cv ++ [(fname, hd [] figs)];
         displayed := displayed cv |}
  | Close_all =>
      {| open_figures := []; written := written cv; displayed := displayed cv |}
  | Show =>
      {| open_figures := if blocking then [] else open_figures cv;
         written := written cv;
         displayed := displayed cv ++ open_figures cv |}
  | Gca =>
      {| open_figures := gcf (open_figures cv);
         written := written cv;
         displayed := displayed cv |}
  | _ =>
      {| open_figures := draw c (open_figures cv);
         written := written cv;
         displayed := displayed cv |}
  end.

Definition render (blocking : bool) (cs : list call) : canvas :=
  fold_left (step blocking) cs blank.

End plt.

(** ** The world the module runs in *)

Inductive pymodule : Type := PyModule (name : string).

Record world : Type :=
  { heap : list obj;              (** the objects, by reference *)
    calls : list plt.call;        (** the calls made to pyplot, oldest first *)
    stdout : list string;         (** the lines printed *)
    ds : option pymodule }.       (** the module global [ds] *)

Definition M (A : Type) : Type := world -> outcome A * world.

Definition ret {A} (a : A) : M A := fun w => (Returned a, w).

Definition raise {A} (e : exn) : M A := fun w => (Raised e, w).

Definition bind {A B} (m : M A) (k : A -> M B) : M B :=
  fun w =>
    match m w with
    | (Returned a, w') => k a w'
    | (Raised e, w') => (Raised e, w')
    end.

#[global] Instance M_ret : MRet M := @ret.
#[global] Instance M_bind : MBind M := fun A B k m => bind m k.

Definition lift {A} (r : outcome A) : M A :=
  match r with
  | Returned a => ret a
  | Raised e => raise e
  end.

(** [for x in xs: body] *)
Fixpoint for_each {A} (xs : list A) (body : A -> M unit) : M unit :=
  match xs with
  | [] => ret tt
  | x :: rest => body x ;; for_each rest body
  end.

(** Reading through a reference.  A reference outside the store denotes no
    object; the run stops there. *)
Definition deref (l : loc) : M obj :=
  fun w =>
    match heap w !! l with
    | Some o => (Returned o, w)
    | None => (Raised (RuntimeError "dangling reference"), w)
    end.

(** A new object gets the next free reference. *)
Definition alloc (o : obj) : M loc :=
  fun w =>
    (Returned (length (heap w)),
     {| heap := heap w ++ [o]; calls := calls w; stdout := stdout w; ds := ds w |}).

(** In-place update of the object behind a reference. *)
Definition assign (l : loc) (o : obj) : M unit :=
  fun w =>
    (Returned tt,
     {| heap := <[l := o]> (heap w); calls := calls w; stdout := stdout w; ds := ds w |}).

Definition print (line : string) : M unit :=
  fun w =>
    (Returned tt,
     {| heap := heap w; calls := calls w; stdout := stdout w ++ [line]; ds := ds w |}).

Definition set_ds (m : pymodule) : M unit :=
  fun w =>
    (Returned tt,
     {| heap := heap w; calls := calls w; stdout := stdout w; ds := Some m |}).

(** A call to pyplot that completed. *)
Definition emit (c : plt.call) : M unit :=
  fun w =>
    (Returned tt,
     {| heap := heap w; calls := calls w ++ [c]; stdout := stdout w; ds := ds w |}).

(** What surrounds the module: the names an importer may have put into its
    globals, the packages that can be imported, the file system and the
    formatting of floats. *)
Record environment : Type :=
  { utils_distance_law : option (loc -> M loc);
    savgol_filter : option (loc -> Z -> Z -> M loc);
    import_datashader : outcome pymodule;
    writable : string -> bool;
    float_repr : float -> string }.

(** The module as it is loaded on its own: neither [utils] nor
    [savgol_filter] is bound. *)
Definition bare (imp : outcome pymodule) (wr : string -> bool)
    (fr : float -> string) : environment :=
  {| utils_distance_law := None;
     savgol_filter := None;
     import_datashader := imp;
     writable := wr;
     float_repr := fr |}.

(** [str(v)] *)
Definition py_str (env : environment) (v : pyval) : string :=
  match v with
  | PyNone => "None"
  | PyInt n => str_of_int n
  | PyFloat f => float_repr env f
  | PyStr s => s
  | PyPath p => pathlib.fspath p
  end.

(** [plt.savefig(fname, format=...)] *)
Definition savefig (env : environment) (fname : string) (format : option string)
    : M unit :=
  if writable env fname then emit (plt.Savefig fname format)
  else raise (OSError fname).

(** [len(a)] *)
Definition len (a : ndarray) : nat :=
  match a with
  | Array1 v => length v
  | Array2 g => length g
  end.

(** [plt.plot(x, y, fmt)]: both must have the same first dimension. *)
Definition plot_xy (x : list Z) (y : ndarray) (fmt : string) : M unit :=
  if Nat.eqb (length x) (len y)
  then emit (plt.Plot_xy x y fmt)
  else raise (ValueError "x and y must have same first dimension").

(** [t[i]] on a tuple *)
Definition index (t : record) (i : nat) : M pyval :=
  match t !! i with
  | Some v => ret v
  | None => raise (IndexError "tuple index out of range")
  end.

(** [a, b, c, d = t] *)
Definition unpack4 (t : record) : M (pyval * pyval * pyval * pyval) :=
  match t with
  | [a; b; c; d] => ret (a, b, c, d)
  | _ => raise (ValueError "wrong number of values to unpack")
  end.

(** [pathlib.Path(v)]: a string is parsed, a path-like object gives its
    path. *)
Definition Path_of (v : pyval) : M pathlib.Path :=
  match v with
  | PyStr s => ret (pathlib.of_str s)
  | PyPath p => ret p
  | _ => raise (TypeError "expected str, bytes or os.PathLike object")
  end.

(** The [output] argument: [pathlib.Path()] when it is [None]. *)
Definition output_dir (output : option string) : pathlib.Path :=
  match output with
  | None => pathlib.cwd
  | Some o => pathlib.of_str o
  end.

(** ** pattern_plot *)

(** [contact_map.mat.todense() ** 0.15], the argument of [plt.imshow]; the
    power is kept as the scaling of the image.  On a sparse array
    [todense()] is an [ndarray], and the power is taken cell by cell.  On a
    sparse matrix [todense()] is a [numpy.matrix], whose [**] is the matrix
    power and takes an integer exponent only. *)
Definition mat_todense (contact_map : loc) : M grid :=
  cm ← deref contact_map;
  match cm with
  | ContactMap mat =>
      m ← deref mat;
      match m with
      | SparseArray _ g => ret g
      | SparseMatrix _ _ => raise (TypeError "exponent must be an integer")
      | _ => raise (AttributeError "todense")
      end
  | _ => raise (AttributeError "mat")
  end.

(** [patterns.items()].  A table yields its columns under their names;
    they are no lists of records, and no branch of the loop looks at them. *)
Definition items (patterns : loc) : M (list (pyval * list record)) :=
  p ← deref patterns;
  match p with
  | Dict its => ret its
  | DataFrame _ => ret [(PyStr "bin1", []); (PyStr "bin2", []); (PyStr "score", [])]
  | _ => raise (AttributeError "items")
  end.

(** The body of [for border in all_patterns]. *)
Definition border_body (name : pyval) (border : record) : M unit :=
  b0 ← index border 0;
  if py_ne b0 name then ret tt
  else
    b1 ← index border 1;
    if py_ne b1 (PyStr "NA") then
      '(_, pos1, pos2, _) ← unpack4 border;
      emit (plt.Plot_marker pos1 pos2)
    else ret tt.

(** The body of [for loop in all_patterns]. *)
Definition loop_body (name : pyval) (loop : record) : M unit :=
  l0 ← index loop 0;
  if py_ne l0 name then ret tt
  else
    l1 ← index loop 1;
    if py_ne l1 (PyStr "NA") then
      '(_, pos1, pos2, _) ← unpack4 loop;
      emit (plt.Scatter_marker pos1 pos2)
    else ret tt.

(** The body of [for pattern_type, all_patterns in patterns.items()]. *)
Definition patterns_body (name : pyval) (item : pyval * list record) : M unit :=
  let '(pattern_type, all_patterns) := item in
  if py_eq pattern_type (PyStr "borders") then for_each all_patterns (border_body name)
  else if py_eq pattern_type (PyStr "loops") then for_each all_patterns (loop_body name)
  else ret tt.

(** [if name is None: name = 0] *)
Definition default_name (name : pyval) : pyval :=
  match name with
  | PyNone => PyInt 0
  | _ => name
  end.

Definition pattern_plot (env : environment) (contact_map patterns : loc)
    (output : option string) (name : pyval) : M unit :=
  let name := default_name name in
  let output := output_dir output in
  dense ← mat_todense contact_map;
  emit (plt.Imshow dense plt.Power015 "afmhot_r") ;;
  emit (plt.Title name) ;;
  emit plt.Colorbar ;;
  its ← items patterns;
  for_each its (patterns_body name) ;;
  next ← lift (py_add name (PyInt 1));
  let emplacement :=
    pathlib.joinpath output (pathlib.of_str (py_str env next ++ ".2.pdf")) in
  savefig env (pathlib.fspath emplacement) (Some "pdf") ;;
  emit plt.Close_all.

(** ** distance_plot *)

(** [matrices]: one numpy array, or a list of them. *)
Inductive matrices_arg : Type :=
| one_array (m : loc)
| array_list (ms : list loc).

(** [labels]: [None], one string, or a list. *)
Inductive labels_arg : Type :=
| no_labels
| one_label (s : string)
| label_list (ls : list pyval).

(** [range(n)] *)
Definition range (n : nat) : list Z := map Z.of_nat (seq 0 n).

(** The global [utils], then its attribute [distance_law]. *)
Definition call_distance_law (env : environment) (matrix : loc) : M loc :=
  match utils_distance_law env with
  | Some distance_law => distance_law matrix
  | None => raise (NameError "utils")
  end.

(** The global [savgol_filter]. *)
Definition call_savgol_filter (env : environment) (y : loc)
    (window_length polyorder : Z) : M loc :=
  match savgol_filter env with
  | Some f => f y window_length polyorder
  | None => raise (NameError "savgol_filter")
  end.

(** The cells of an array, row after row. *)
Definition cells (a : ndarray) : list float :=
  match a with
  | Array1 v => v
  | Array2 g => concat g
  end.

(** The cells at the positions [idx]. *)
Fixpoint pick (flat : list float) (idx : list nat) : option (list float) :=
  match idx with
  | [] => Some []
  | i :: rest =>
      match flat !! i, pick flat rest with
      | Some x, Some xs => Some (x :: xs)
      | _, _ => None
      end
  end.

Fixpoint pick_rows (flat : list float) (rows : list (list nat)) : option grid :=
  match rows with
  | [] => Some []
  | idx :: rest =>
      match pick flat idx, pick_rows flat rest with
      | Some v, Some g => Some (v :: g)
      | _, _ => None
      end
  end.

(** What a view shows of the cells [flat]. *)
Definition select (flat : list float) (sel : selection) : option ndarray :=
  match sel with
  | Select1 idx => Array1 <$> pick flat idx
  | Select2 rows => Array2 <$> pick_rows flat rows
  end.

(** The values of the numpy array behind a reference; a view is read
    through to the array whose memory it shares.  The distance law and the
    filter are taken to return numpy arrays; with anything else, or with a
    view of no array, the run stops. *)
Definition array_at (l : loc) : M ndarray :=
  o ← deref l;
  match o with
  | NDArray a => ret a
  | NDView base sel =>
      b ← deref base;
      match b with
      | NDArray a =>
          match select (cells a) sel with
          | Some v => ret v
          | None => raise (RuntimeError "dangling view")
          end
      | _ => raise (RuntimeError "dangling view")
      end
  | _ => raise (TypeError "not a numpy array")
  end.

Definition nan_to_zero (x : float) : float :=
  if PrimFloat.is_nan x then 0%float else x.

(** An array with its NaNs replaced by [0.0]. *)
Definition zeroed (a : ndarray) : ndarray :=
  match a with
  | Array1 v => Array1 (map nan_to_zero v)
  | Array2 g => Array2 (map (map nan_to_zero) g)
  end.

(** The positions a view shows. *)
Definition indices (sel : selection) : list nat :=
  match sel with
  | Select1 idx => idx
  | Select2 rows => concat rows
  end.

Definition zero_at (flat : list float) (i : nat) : list float :=
  match flat !! i with
  | Some x => <[i := nan_to_zero x]> flat
  | None => flat
  end.

(** Rows of the lengths [lens] out of [flat]. *)
Fixpoint unflatten (lens : list nat) (flat : list float) : grid :=
  match lens with
  | [] => []
  | n :: rest => firstn n flat :: unflatten rest (skipn n flat)
  end.

(** The array [a] with the cells [flat] in place of its own. *)
Definition with_cells (a : ndarray) (flat : list float) : ndarray :=
  match a with
  | Array1 _ => Array1 flat
  | Array2 g => Array2 (unflatten (map length g) flat)
  end.

(** [y[np.isnan(y)] = 0.0]: the array behind [y] is changed in place.  When
    [y] is a view, the cells it shows are changed in the array whose
    memory it shares. *)
Definition zero_nans (y : loc) : M unit :=
  o ← deref y;
  match o with
  | NDArray a => assign y (NDArray (zeroed a))
  | NDView base sel =>
      b ← deref base;
      match b with
      | NDArray a =>
          assign base
            (NDArray (with_cells a (fold_left zero_at (indices sel) (cells a))))
      | _ => raise (RuntimeError "dangling view")
      end
  | _ => raise (TypeError "not a numpy array")
  end.

(** The body of [for matrix, name in zip(matrix_list, labels)]. *)
Definition distance_body (env : environment) (pair : loc * pyval) : M unit :=
  let '(matrix, name) := pair in
  dist ← call_distance_law env matrix;
  d ← array_at dist;
  let x := range (len d) in
  let y := dist in
  zero_nans y ;;
  y_savgol ← call_savgol_filter env y 17 5;
  yv ← array_at y;
  plot_xy x yv "o" ;;
  emit (plt.Plot_y x) ;;
  sv ← array_at y_savgol;
  plot_xy x sv "" ;;
  emit (plt.Xlabel "Genomic distance") ;;
  emit (plt.Ylabel "Contact frequency") ;;
  emit (plt.Xlim 1 1000) ;;
  emit (plt.Ylim (-5) (-1)) ;;
  emit plt.Loglog ;;
  emit (plt.Title name) ;;
  p ← Path_of name;
  savefig env (pathlib.fspath (pathlib.joinpath p (pathlib.of_str ".pdf3")))
    (Some "pdf") ;;
  emit plt.Close_all.

(** [matrix_list]: a single array is wrapped into a list. *)
Definition matrix_list_of (matrices : matrices_arg) : list loc :=
  match matrices with
  | one_array m => [m]
  | array_list ms => ms
  end.

(** [labels]: the indices of [matrix_list] by default, a single string is
    wrapped into a list. *)
Definition labels_of (matrix_list : list loc) (labels : labels_arg) : list pyval :=
  match labels with
  | no_labels => map PyInt (range (length matrix_list))
  | one_label s => [PyStr s]
  | label_list ls => ls
  end.

Definition distance_plot (env : environment) (matrices : matrices_arg)
    (labels : labels_arg) : M unit :=
  let matrix_list := matrix_list_of matrices in
  let labels := labels_of matrix_list labels in
  for_each (combine matrix_list labels) (distance_body env).

(** ** pileup_plot *)

(** The pileup is a two-dimensional numpy array; data of another shape is
    no image.  [plt.imshow] finds this out after it has taken the current
    axes, so a figure is open when it raises. *)
Definition image_data (pileup_pattern : loc) : M grid :=
  o ← deref pileup_pattern;
  match o with
  | NDArray _ | NDView _ _ =>
      a ← array_at pileup_pattern;
      match a with
      | Array2 g => ret g
      | Array1 _ => emit plt.Gca ;; raise (TypeError "Invalid shape for image data")
      end
  | _ => emit plt.Gca ;; raise (TypeError "Image data cannot be converted to float")
  end.

(** [name] defaults to ["pileup patterns"]. *)
Definition pileup_plot (env : environment) (pileup_pattern : loc)
    (name : option pyval) (output : option string) : M unit :=
  let name := match name with None => PyStr "pileup patterns" | Some n => n end in
  let output := output_dir output in
  g ← image_data pileup_pattern;
  emit (plt.Imshow g plt.Raw "seismic") ;;
  emit (plt.Title (PyStr ("pileup " ++ py_str env name))) ;;
  emit plt.Colorbar ;;
  file ← lift (py_add name (PyStr ".pdf"));
  p ← Path_of file;
  let emplacement := pathlib.joinpath output p in
  savefig env (pathlib.fspath emplacement) (Some "pdf") ;;
  emit plt.Close_all.

(** ** _check_datashader and plot_whole_matrix *)

(** A function object: its [__name__] and what calling it does. *)
Record pyfunction (A B : Type) : Type :=
  { fn_name : string; fn_call : A -> M B }.
Arguments fn_name {A B} _.
Arguments fn_call {A B} _ _.

(** The [try] block of [wrapped]: the import, the binding of [ds], and the
    handler that prints and raises the caught exception again. *)
Definition try_import (env : environment) (name : string) : M unit :=
  match import_datashader env with
  | Returned datashader => set_ds datashader
  | Raised e =>
      if is_ImportError e then
        print ("The datashader package is required to use " ++ name
               ++ ", please install it first") ;;
        raise e
      else raise e
  end.

Definition wrapped {A B} (env : environment) (fun_ : pyfunction A B) (args : A) : M B :=
  try_import env (fn_name fun_) ;;
  fn_call fun_ args.

(** [functools.wraps] keeps the name of the decorated function. *)
Definition _check_datashader {A B} (env : environment) (fun_ : pyfunction A B)
    : pyfunction A B :=
  {| fn_name := fn_name fun_; fn_call := wrapped env fun_ |}.

(** [l[s:e]] *)
Definition py_slice {A} (s e : Z) (l : list A) : list A :=
  let n := Z.of_nat (length l) in
  let norm i := if (i <? 0)%Z then Z.max (i + n) 0 else Z.min i n in
  firstn (Z.to_nat (norm e - norm s)) (skipn (Z.to_nat (norm s)) l).

(** [m[s1:e1, s2:e2]] *)
Definition slice2 (s1 e1 s2 e2 : Z) (g : grid) : grid :=
  map (py_slice s2 e2) (py_slice s1 e1 g).

(** [mat.shape[i]] *)
Definition shape (mat : loc) (i : nat) : M Z :=
  o ← deref mat;
  match o with
  | SparseMatrix _ g | SparseArray _ g =>
      match i with
      | 0%nat => ret (Z.of_nat (length g))
      | 1%nat => ret (Z.of_nat (length (hd [] g)))
      | _ => raise (IndexError "tuple index out of range")
      end
  | NDArray _ | NDView _ _ =>
      a ← array_at mat;
      match a, i with
      | _, 0%nat => ret (Z.of_nat (len a))
      | Array2 g, 1%nat => ret (Z.of_nat (length (hd [] g)))
      | _, _ => raise (IndexError "tuple index out of range")
      end
  | DataFrame rows =>
      match i with
      | 0%nat => ret (Z.of_nat (length rows))
      | 1%nat => ret 3%Z
      | _ => raise (IndexError "tuple index out of range")
      end
  | _ => raise (AttributeError "shape")
  end.

(** The rows of the table behind a reference. *)
Definition frame_at (l : loc) : M (list pattern_row) :=
  o ← deref l;
  match o with
  | DataFrame rows => ret rows
  | _ => raise (AttributeError "bin1")
  end.

(** [patterns.copy()] gives a new object with the same contents; the copy
    of a view is an array with memory of its own. *)
Definition copy (patterns : loc) : M loc :=
  o ← deref patterns;
  match o with
  | ContactMap _ => raise (AttributeError "copy")
  | NDView _ _ => a ← array_at patterns; alloc (NDArray a)
  | _ => alloc o
  end.

(** [pat.loc[mask, :]] gives a new table with the rows the mask keeps. *)
Definition frame_loc (pat : loc) (mask : pattern_row -> bool) : M loc :=
  o ← deref pat;
  match o with
  | DataFrame rows => alloc (DataFrame (List.filter mask rows))
  | _ => raise (AttributeError "loc")
  end.

(** [mat.tocsr()] gives the matrix itself when it is in CSR format already. *)
Definition tocsr (mat : loc) : M loc :=
  o ← deref mat;
  match o with
  | SparseMatrix true _ | SparseArray true _ => ret mat
  | SparseMatrix false g => alloc (SparseMatrix true g)
  | SparseArray false g => alloc (SparseArray true g)
  | _ => raise (AttributeError "tocsr")
  end.

(** [m[s1:e1, s2:e2]] on a sparse matrix or array gives a new one. *)
Definition getitem (m : loc) (s1 e1 s2 e2 : Z) : M loc :=
  o ← deref m;
  match o with
  | SparseMatrix csr g => alloc (SparseMatrix csr (slice2 s1 e1 s2 e2 g))
  | SparseArray csr g => alloc (SparseArray csr (slice2 s1 e1 s2 e2 g))
  | _ => raise (TypeError "not subscriptable")
  end.

(** [m.todense()] *)
Definition todense (m : loc) : M grid :=
  o ← deref m;
  match o with
  | SparseMatrix _ g | SparseArray _ g => ret g
  | _ => raise (AttributeError "todense")
  end.

(** The bins of the table are [int64], and so is what is computed from
    them: a result outside the range wraps around. *)
Definition wrap64 (z : Z) : Z := ((z + 2 ^ 63) mod 2 ^ 64 - 2 ^ 63)%Z.

(** [a - b] on [int64] *)
Definition sub64 (a b : Z) : Z := wrap64 (a - b).

(** The rows kept: both bins strictly inside their range. *)
Definition in_region (s1 e1 s2 e2 : Z) (r : pattern_row) : bool :=
  (bin1 r >? s1)%Z && (bin1 r <? e1)%Z && (bin2 r >? s2)%Z && (bin2 r <? e2)%Z.

(** The [if]/[elif]/[else] that settles [s1, e1] and [s2, e2]. *)
Definition ranges (mat : loc) (region region2 : option (Z * Z)) : M (Z * Z * Z * Z) :=
  match region, region2 with
  | Some (s1, e1), None => ret (s1, e1, s1, e1)
  | Some (s1, e1), Some (s2, e2) => ret (s1, e1, s2, e2)
  | None, _ =>
      rows ← shape mat 0;
      cols ← shape mat 1;
      ret (0%Z, rows, 0%Z, cols)
  end.

(** The function under the decorator. *)
Definition plot_whole_matrix_fun (env : environment)
    (args : loc * loc * option string * option (Z * Z) * option (Z * Z)) : M unit :=
  let '(mat, patterns, out, region, region2) := args in
  '(s1, e1, s2, e2) ← ranges mat region region2;
  pat ← copy patterns;
  pat ← frame_loc pat (in_region s1 e1 s2 e2);
  csr ← tocsr mat;
  sub_mat ← getitem csr s1 e1 s2 e2;
  dense ← todense sub_mat;
  emit (plt.Imshow dense plt.Log "Reds") ;;
  kept ← frame_at pat;
  emit (plt.Scatter_points (map (fun r => sub64 (bin1 r) s1) kept)
                           (map (fun r => sub64 (bin2 r) s2) kept)) ;;
  match out with
  | None => emit plt.Show
  | Some fname => savefig env fname None
  end.

Definition plot_whole_matrix (env : environment) (mat patterns : loc)
    (out : option string) (region region2 : option (Z * Z)) : M unit :=
  fn_call
    (_check_datashader env
       {| fn_name := "plot_whole_matrix"; fn_call := plot_whole_matrix_fun env |})
    (mat, patterns, out, region, region2).

(** ** Vocabulary of the statements *)

(** [wp m Q w]: running [m] from [w] ends in an outcome and a world that
    satisfy [Q]. *)
Definition wp {A} (m : M A) (Q : outcome A -> world -> Prop) (w : world) : Prop :=
  Q (m w).1 (m w).2.

(** A postcondition that only speaks about normal returns. *)
Definition on_return {A} (Q : world -> Prop) : outcome A -> world -> Prop :=
  fun r w => match r with Returned _ => Q w | Raised _ => True end.

(** The last call made to pyplot is [plt.close("all")]. *)
Definition closed (w : world) : Prop :=
  exists cs, calls w = cs ++ [plt.Close_all].

(** Whenever [m] returns, its last call to pyplot closed all figures and
    pyplot holds no open figure, whatever the backend. *)
Definition closes_all_figures (m : M unit) : Prop :=
  forall w w', m w = (Returned tt, w') ->
    closed w' /\
    forall blocking, plt.open_figures (plt.render blocking (calls w')) = [].

(** The ranges a call works with, for a matrix with the cells [g]. *)
Definition ranges_for (g : grid) (region region2 : option (Z * Z)) : Z * Z * Z * Z :=
  match region, region2 with
  | Some (s1, e1), None => (s1, e1, s1, e1)
  | Some (s1, e1), Some (s2, e2) => (s1, e1, s2, e2)
  | None, _ => (0, Z.of_nat (length g), 0, Z.of_nat (length (hd [] g)))%Z
  end.

(** The objects a call of [plot_whole_matrix] adds to the store: the copy
    of the table, the filtered table, the CSR form of the matrix when it
    was in another format, and the slice. *)
Definition new_objects (csr : bool) (g : grid) (rows kept : list pattern_row)
    (sub : grid) : list obj :=
  [DataFrame rows; DataFrame kept]
  ++ (if csr then [] else [SparseMatrix true g])
  ++ [SparseMatrix true sub].

(** [plt.show()] without [out], [plt.savefig(out)] with it. *)
Definition last_call (out : option string) : plt.call :=
  match out with
  | None => plt.Show
  | Some fname => plt.Savefig fname None
  end.

(** The world a call of [plot_whole_matrix] leaves when it returns: it has
    imported datashader as [m], drawn the slice of [g] and the rows [kept]
    of [rows]. *)
Definition whole_matrix_world (w : world) (m : pymodule) (csr : bool) (g : grid)
    (rows : list pattern_row) (out : option string) (s1 e1 s2 e2 : Z) : world :=
  let kept := List.filter (in_region s1 e1 s2 e2) rows in
  {| heap := heap w ++ new_objects csr g rows kept (slice2 s1 e1 s2 e2 g);
     calls := calls w ++
       [plt.Imshow (slice2 s1 e1 s2 e2 g) plt.Log "Reds";
        plt.Scatter_points (map (fun r => sub64 (bin1 r) s1) kept)
                           (map (fun r => sub64 (bin2 r) s2) kept);
        last_call out];
     stdout := stdout w;
     ds := Some m |}.

(** What [patterns.items()] yields for the object behind [patterns]. *)
Definition patterns_at (w : world) (patterns : loc) : list (pyval * list record) :=
  match heap w !! patterns with
  | Some (Dict its) => its
  | Some (DataFrame _) => [(PyStr "bin1", []); (PyStr "bin2", []); (PyStr "score", [])]
  | _ => []
  end.

(** The markers [pattern_plot] may draw for the frame [name]: a diamond for
    a record under ["borders"], a circle for a record under ["loops"], in
    both cases a record of four fields whose first field equals [name] and
    whose second field is not ["NA"]. *)
Inductive marker_of (name : pyval) (its : list (pyval * list record))
    : plt.call -> Prop :=
| border_marker all_patterns f pos1 pos2 sc :
    In (PyStr "borders", all_patterns) its ->
    In [f; pos1; pos2; sc] all_patterns ->
    py_eq f name = true ->
    pos1 <> PyStr "NA" ->
    marker_of name its (plt.Plot_marker pos1 pos2)
| loop_marker all_patterns f pos1 pos2 sc :
    In (PyStr "loops", all_patterns) its ->
    In [f; pos1; pos2; sc] all_patterns ->
    py_eq f name = true ->
    pos1 <> PyStr "NA" ->
    marker_of name its (plt.Scatter_marker pos1 pos2).

Definition is_marker (c : plt.call) : Prop :=
  match c with
  | plt.Plot_marker _ _ | plt.Scatter_marker _ _ => True
  | _ => False
  end.

(** From [w] to [w'] only calls to pyplot were made, all of them in [good]. *)
Definition draws (good : plt.call -> Prop) (w w' : world) : Prop :=
  heap w' = heap w /\ stdout w' = stdout w /\ ds w' = ds w
  /\ exists cs, calls w' = calls w ++ cs /\ Forall good cs.

(** The file [pattern_plot] saves to: [<name + 1>.2.pdf] in [output]. *)
Definition emplacement_of (env : environment) (output : option string)
    (next : pyval) : string :=
  pathlib.fspath
    (pathlib.joinpath (output_dir output)
       (pathlib.of_str (py_str env next ++ ".2.pdf"))).

(** What [pattern_plot] has done when it stops in [w'] with the outcome
    [r]: the image with its title and colour bar, then markers of the
    frame, then, if it returns, the file and the closing of the figures. *)
Definition pattern_plot_trace (env : environment) (patterns : loc)
    (output : option string) (name : pyval) (w : world)
    (r : outcome unit) (w' : world) : Prop :=
  heap w' = heap w /\ stdout w' = stdout w /\ ds w' = ds w
  /\ exists pre markers post,
      calls w' = calls w ++ pre ++ markers ++ post
      /\ (pre = [] \/ exists dense,
             pre = [plt.Imshow dense plt.Power015 "afmhot_r";
                    plt.Title (default_name name); plt.Colorbar])
      /\ Forall (marker_of (default_name name) (patterns_at w patterns)) markers
      /\ match r with
         | Returned _ =>
             exists next,
               py_add (default_name name) (PyInt 1) = Returned next
               /\ post = [plt.Savefig (emplacement_of env output next) (Some "pdf");
                          plt.Close_all]
         | Raised _ => post = []
         end.

Fixpoint has_slash (s : string) : bool :=
  match s with
  | EmptyString => false
  | String c r => Ascii.eqb c "/" || has_slash r
  end.

(** The path of the file [file] in the directory [dir]. *)
Definition in_dir (dir : pathlib.Path) (file : string) : pathlib.Path :=
  {| pathlib.root := pathlib.root dir;
     pathlib.names := pathlib.names dir ++ [file] |}.

Definition is_savefig (c : plt.call) : Prop :=
  match c with
  | plt.Savefig _ _ => True
  | _ => False
  end.

(** Every object of [w] is still there in [w'], with the contents it had. *)
Definition untouched (w w' : world) : Prop :=
  forall l o, heap w !! l = Some o -> heap w' !! l = Some o.

(** [m] changes no object that exists when it starts. *)
Definition keeps {A} (m : M A) : Prop :=
  forall w, untouched w (m w).2.

(** What [m] returns refers to an object [m] has made, and this object
    shares no memory with an object that was there before: if it is a
    view, then of an array [m] has made. *)
Definition returns_fresh (m : M loc) : Prop :=
  forall w l, (m w).1 = Returned l ->
    heap w !! l = None
    /\ forall base sel,
         heap (m w).2 !! l = Some (NDView base sel) -> heap w !! base = None.

(** The two names an importer supplies leave the objects they find alone,
    and the distance law returns an array with memory of its own. *)
Definition helpers_build_new_arrays (env : environment) : Prop :=
  (forall distance_law, utils_distance_law env = Some distance_law ->
     forall matrix, keeps (distance_law matrix) /\ returns_fresh (distance_law matrix))
  /\ (forall f, savgol_filter env = Some f ->
        forall y window_length polyorder, keeps (f y window_length polyorder)).

(** ** Sample data *)

Definition sample_matrix : grid :=
  [[4; 1; 0]; [1; 5; 2]; [0; 2; 6]]%float.

Definition sample_table : list pattern_row :=
  [ {| bin1 := 0; bin2 := 1; score := 0.5 |};
    {| bin1 := 1; bin2 := 1; score := 0.75 |};
    {| bin1 := 1; bin2 := 2; score := 0.25 |} ].

Definition sample_heap : list obj :=
  [ ContactMap 1;
    SparseMatrix true sample_matrix;
    Dict [ (PyStr "borders", [[PyInt 0; PyInt 1; PyInt 1; PyFloat 0.5];
                              [PyInt 0; PyStr "NA"; PyStr "NA"; PyStr "NA"];
                              [PyInt 1; PyInt 2; PyInt 2; PyFloat 0.25]]);
           (PyStr "loops", [[PyInt 0; PyInt 0; PyInt 2; PyFloat 0.75]]);
           (PyStr "hairpins", [[PyInt 0; PyInt 1; PyInt 2; PyFloat 0.5]]) ];
    NDArray (Array2 [[0.5; 1.5]; [1.5; 0.5]]%float);
    DataFrame sample_table;
    NDArray (Array2 [[nan; 1]; [1; nan]]%float);
    ContactMap 7;
    SparseArray true sample_matrix ].

(** A contact matrix of 25 bins, with contacts between a bin and itself
    and its neighbours, and patterns inside and outside the region of the
    bins 10 to 20. *)
Definition sample_wide_matrix : grid :=
  map (fun i =>
         map (fun j =>
                if Nat.eqb i j then 8%float
                else if Nat.eqb (S i) j || Nat.eqb i (S j) then 2%float
                     else 0%float)
             (seq 0 25))
      (seq 0 25).

Definition sample_wide_table : list pattern_row :=
  [ {| bin1 := 12; bin2 := 15; score := 0.5 |};
    {| bin1 := 12; bin2 := 5; score := 0.75 |};
    {| bin1 := 10; bin2 := 12; score := 0.25 |};
    {| bin1 := 19; bin2 := 11; score := 0.5 |};
    {| bin1 := 3; bin2 := 4; score := 0.5 |} ].

Definition sample_wide_world : world :=
  {| heap := [SparseMatrix false sample_wide_matrix; DataFrame sample_wide_table];
     calls := []; stdout := []; ds := None |}.

Definition sample_world : world :=
  {| heap := sample_heap; calls := []; stdout := []; ds := None |}.

(** The same store, with a figure left open by an earlier plot. *)
Definition sample_world_drawn : world :=
  {| heap := sample_heap; calls := [plt.Title (PyStr "earlier")];
     stdout := []; ds := None |}.

(** The module on its own with datashader installed, every path writable. *)
Definition sample_env : environment :=
  bare (Returned (PyModule "datashader")) (fun _ => true) (fun _ => "0.0").

(** The module on its own without datashader. *)
Definition sample_env_no_datashader : environment :=
  bare (Raised (ModuleNotFoundError "No module named 'datashader'"))
    (fun _ => true) (fun _ => "0.0").

(** Stand-ins for the two names an importer may supply: a distance law that
    returns the first row of the matrix as a new array, and a filter that
    returns a copy of its argument. *)
Definition sample_distance_law (matrix : loc) : M loc :=
  o ← deref matrix;
  match o with
  | NDArray (Array2 g) | SparseMatrix _ g => alloc (NDArray (Array1 (hd [] g)))
  | _ => raise (TypeError "not a matrix")
  end.

Definition sample_savgol_filter (y : loc) (window_length polyorder : Z) : M loc :=
  a ← array_at y;
  alloc (NDArray a).

(** A distance law that hands back the array it was given. *)
Definition sample_env_aliasing : environment :=
  {| utils_distance_law := Some (fun matrix => ret matrix);
     savgol_filter := Some sample_savgol_filter;
     import_datashader := Returned (PyModule "datashader");
     writable := fun _ => true;
     float_repr := fun _ => "0.0" |}.

(** A distance law that returns a view of the first row of the matrix. *)
Definition sample_view_law (matrix : loc) : M loc :=
  o ← deref matrix;
  match o with
  | NDArray (Array2 g) => alloc (NDView matrix (Select1 (seq 0 (length (hd [] g)))))
  | _ => raise (TypeError "not a matrix")
  end.

Definition sample_env_view : environment :=
  {| utils_distance_law := Some sample_view_law;
     savgol_filter := Some sample_savgol_filter;
     import_datashader := Returned (PyModule "datashader");
     writable := fun _ => true;
     float_repr := fun _ => "0.0" |}.

Definition sample_env_injected : environment :=
  {| utils_distance_law := Some sample_distance_law;
     savgol_filter := Some sample_savgol_filter;
     import_datashader := Returned (PyModule "datashader");
     writable := fun _ => true;
     float_repr := fun _ => "0.0" |}.

(** ** Vocabulary for the further properties *)

(** The world [w] after the calls [cs] to pyplot. *)
Definition add_calls (w : world) (cs : list plt.call) : world :=
  {| heap := heap w; calls := calls w ++ cs; stdout := stdout w; ds := ds w |}.

(** Whether the body of the loop over the records gets through [r] for
    the frame [name]: a record needs a first field; a record of the frame
    needs a second one; and a record of the frame with a position needs
    four fields. *)
Definition record_ok (name : pyval) (r : record) : bool :=
  match r with
  | [] => false
  | f :: rest =>
      py_ne f name
      || match rest with
         | [] => false
         | pos1 :: rest' =>
             negb (py_ne pos1 (PyStr "NA")) || Nat.eqb (length rest') 2
         end
  end.

(** The marker a record of the frame with a position is drawn with. *)
Definition marker_calls (mk : pyval -> pyval -> plt.call) (name : pyval)
    (r : record) : list plt.call :=
  match r with
  | [f; pos1; pos2; _] =>
      if py_eq f name && py_ne pos1 (PyStr "NA") then [mk pos1 pos2] else []
  | _ => []
  end.

(** The markers of the records under one key. *)
Definition item_markers (name : pyval) (item : pyval * list record)
    : list plt.call :=
  if py_eq item.1 (PyStr "borders")
  then flat_map (marker_calls plt.Plot_marker name) item.2
  else if py_eq item.1 (PyStr "loops")
       then flat_map (marker_calls plt.Scatter_marker name) item.2
       else [].

Definition item_ok (name : pyval) (item : pyval * list record) : bool :=
  if py_eq item.1 (PyStr "borders") || py_eq item.1 (PyStr "loops")
  then forallb (record_ok name) item.2
  else true.

(** Positions pyplot takes as coordinates: numbers and strings. *)
Definition is_coordinate (v : pyval) : Prop :=
  match v with
  | PyInt _ | PyFloat _ | PyStr _ => True
  | _ => False
  end.

Definition has_coordinates (c : plt.call) : Prop :=
  match c with
  | plt.Plot_marker x y | plt.Scatter_marker x y => is_coordinate x /\ is_coordinate y
  | _ => True
  end.

(** The markers of the frame [name] stand at coordinates. *)
Definition markers_have_coordinates (name : pyval)
    (its : list (pyval * list record)) : Prop :=
  Forall has_coordinates (flat_map (item_markers name) its).

(** What [pattern_plot] needs to get to its end: a contact map with a
    sparse array, a dict (or a table) of patterns whose records the loop
    gets through, a name that [1] can be added to, and a path it can
    write. *)
Definition pattern_plot_ok (env : environment) (contact_map patterns : loc)
    (output : option string) (name : pyval) (w : world) (g : grid)
    (next : pyval) : Prop :=
  (exists mat csr,
      heap w !! contact_map = Some (ContactMap mat)
      /\ heap w !! mat = Some (SparseArray csr g))
  /\ ((exists its, heap w !! patterns = Some (Dict its))
      \/ (exists rows, heap w !! patterns = Some (DataFrame rows)))
  /\ forallb (item_ok (default_name name)) (patterns_at w patterns) = true
  /\ py_add (default_name name) (PyInt 1) = Returned next
  /\ writable env (emplacement_of env output next) = true.

(** The calls of a run of [pattern_plot] that returns: the image with its
    title and colour bar, the markers of the frame in the order of the
    dict, the file, the closing of the figures. *)
Definition pattern_plot_calls (env : environment) (output : option string)
    (name : pyval) (g : grid) (next : pyval)
    (its : list (pyval * list record)) : list plt.call :=
  [plt.Imshow g plt.Power015 "afmhot_r"; plt.Title (default_name name); plt.Colorbar]
  ++ flat_map (item_markers (default_name name)) its
  ++ [plt.Savefig (emplacement_of env output next) (Some "pdf"); plt.Close_all].

(** A call that draws on the current figure. *)
Definition is_drawing (c : plt.call) : Prop :=
  match c with
  | plt.Savefig _ _ | plt.Close_all | plt.Show | plt.Gca => False
  | _ => True
  end.

(** The figure drawing goes to. *)
Definition current_figure (cv : plt.canvas) : plt.figure :=
  hd [] (plt.open_figures cv).

(** The name [pileup_plot] works with. *)
Definition pileup_name (name : option pyval) : pyval :=
  match name with
  | None => PyStr "pileup patterns"
  | Some n => n
  end.

(** The file [pileup_plot] saves to for the name [s]. *)
Definition pileup_file (output : option string) (s : string) : string :=
  pathlib.fspath
    (pathlib.joinpath (output_dir output) (pathlib.of_str (s ++ ".pdf"))).

Definition pileup_calls (output : option string) (g : grid) (s : string)
    : list plt.call :=
  [plt.Imshow g plt.Raw "seismic"; plt.Title (PyStr ("pileup " ++ s));
   plt.Colorbar; plt.Savefig (pileup_file output s) (Some "pdf"); plt.Close_all].

(** The pairs the loop of [distance_plot] goes through. *)
Definition zipped (matrices : matrices_arg) (labels : labels_arg)
    : list (loc * pyval) :=
  combine (matrix_list_of matrices) (labels_of (matrix_list_of matrices) labels).

(** The path a label stands for: a string is parsed, a path-like object
    gives its path; no other label stands for a path. *)
Definition label_path (label : pyval) : option pathlib.Path :=
  match label with
  | PyStr s => Some (pathlib.of_str s)
  | PyPath p => Some p
  | _ => None
  end.

(** The file [distance_plot] saves to for a label that stands for [p]. *)
Definition pdf3_at (p : pathlib.Path) : string :=
  pathlib.fspath (pathlib.joinpath p (pathlib.of_str ".pdf3")).

(** The file [distance_plot] saves to for the label [s]. *)
Definition pdf3_file (s : string) : string := pdf3_at (pathlib.of_str s).

(** The two names an importer supplies make no call to pyplot. *)
Definition quiet_helpers (env : environment) : Prop :=
  (forall distance_law, utils_distance_law env = Some distance_law ->
     forall matrix w, calls (distance_law matrix w).2 = calls w)
  /\ (forall f, savgol_filter env = Some f ->
        forall y window_length polyorder w,
          calls (f y window_length polyorder w).2 = calls w).

(** All rows have the length of the first one. *)
Definition rectangular (g : grid) : Prop :=
  Forall (fun row => length row = length (hd [] g)) g.

(** The cell of a grid in row [i] and column [j]. *)
Definition cell (g : grid) (i j : nat) : option float :=
  match g !! i with
  | Some row => row !! j
  | None => None
  end.


(** The world in which [ds] is bound to the module [m]. *)
Definition with_ds (w : world) (m : pymodule) : world :=
  {| heap := heap w; calls := calls w; stdout := stdout w; ds := Some m |}.

(** * Properties *)

(** ** Running the monad *)

Lemma wp_bind {A B} (m : M A) (k : A -> M B) Q w :
  wp m (fun r w' => match r with
                    | Returned a => wp (k a) Q w'
                    | Raised e => Q (Raised e) w'
                    end) w ->
  wp (m ≫= k) Q w.
Proof.
  unfold wp, mbind, M_bind, bind.
  destruct (m w) as [[a | e] w']; simpl; auto.
Qed.

Lemma wp_any {A} (m : M A) (Q : outcome A -> world -> Prop) w :
  (forall r w', Q r w') -> wp m Q w.
Proof. intros H. apply H. Qed.

Lemma wp_mono {A} (m : M A) (Q Q' : outcome A -> world -> Prop) w :
  (forall r w', Q r w' -> Q' r w') -> wp m Q w -> wp m Q' w.
Proof. intros H. apply H. Qed.

Lemma wp_run {A} (m : M A) Q w r w' :
  wp m Q w -> m w = (r, w') -> Q r w'.
Proof. unfold wp. intros H E. rewrite E in H. exact H. Qed.

(** ** C1: closing the figures *)

Lemma render_snoc blocking cs c :
  plt.render blocking (cs ++ [c]) = plt.step blocking (plt.render blocking cs) c.
Proof. unfold plt.render. rewrite fold_left_app. reflexivity. Qed.

Lemma closed_no_open_figure w blocking :
  closed w -> plt.open_figures (plt.render blocking (calls w)) = [].
Proof. intros [cs ->]. rewrite render_snoc. reflexivity. Qed.

Lemma wp_close_all w : wp (emit plt.Close_all) (on_return closed) w.
Proof. unfold wp, emit, closed. simpl. eauto. Qed.

(** Skips the statements before the last one: whatever they do, the
    property is about the world the last one leaves. *)
Ltac to_last_statement :=
  repeat (apply wp_bind; apply wp_any; intros [?|?] ?; [ | exact I ]).

Lemma pattern_plot_ends_closed env contact_map patterns output name w :
  wp (pattern_plot env contact_map patterns output name) (on_return closed) w.
Proof.
  unfold pattern_plot. cbv zeta.
  to_last_statement. apply wp_close_all.
Qed.

Lemma pileup_plot_ends_closed env pileup_pattern name output w :
  wp (pileup_plot env pileup_pattern name output) (on_return closed) w.
Proof.
  unfold pileup_plot. cbv zeta.
  to_last_statement. apply wp_close_all.
Qed.

Lemma distance_body_ends_closed env pair w :
  wp (distance_body env pair) (on_return closed) w.
Proof.
  destruct pair as [matrix name]. unfold distance_body. cbv zeta.
  to_last_statement. apply wp_close_all.
Qed.

(** A loop that runs at least once leaves what its body leaves. *)
Lemma for_each_last {A} (xs : list A) (body : A -> M unit) (Q : world -> Prop) :
  xs <> [] ->
  (forall x w, wp (body x) (on_return Q) w) ->
  forall w, wp (for_each xs body) (on_return Q) w.
Proof.
  intros Hne Hbody. induction xs as [| x rest IH]; [congruence |].
  intros w. simpl. apply wp_bind.
  destruct rest as [| y rest'].
  - eapply wp_mono; [| apply Hbody]. intros [[] | e] w'; simpl; auto.
  - apply wp_any. intros [? | ?] w'; [| exact I]. apply IH. congruence.
Qed.

(** C1 (amended): [pattern_plot] and [pileup_plot], and [distance_plot]
    whenever it handles at least one matrix, end every call that returns
    with [plt.close("all")], so no figure is open afterwards. *)
Theorem figures_closed_on_return env :
  (forall contact_map patterns output name,
      closes_all_figures (pattern_plot env contact_map patterns output name)) /\
  (forall pileup_pattern name output,
      closes_all_figures (pileup_plot env pileup_pattern name output)) /\
  (forall matrices labels,
      combine (matrix_list_of matrices)
        (labels_of (matrix_list_of matrices) labels) <> [] ->
      closes_all_figures (distance_plot env matrices labels)).
Proof.
  assert (Hfinish : forall (m : M unit),
             (forall w, wp m (on_return closed) w) -> closes_all_figures m).
  { intros m Hm w w' Hrun.
    pose proof (wp_run _ _ _ _ _ (Hm w) Hrun) as Hc. simpl in Hc.
    split; [exact Hc |]. intros b. now apply closed_no_open_figure. }
  split; [| split]; intros; apply Hfinish; intros w.
  - apply pattern_plot_ends_closed.
  - apply pileup_plot_ends_closed.
  - unfold distance_plot. cbv zeta.
    apply for_each_last; [assumption |]. intros. apply distance_body_ends_closed.
Qed.

(** ** Running [plot_whole_matrix] on a sparse matrix and a table *)

Lemma bind_returned {A B} (m : M A) (k : A -> M B) w a w' :
  m w = (Returned a, w') -> (m ≫= k) w = k a w'.
Proof. unfold mbind, M_bind, bind. intros ->. reflexivity. Qed.

Lemma bind_raised {A B} (m : M A) (k : A -> M B) w e w' :
  m w = (Raised e, w') -> (m ≫= k) w = (Raised e, w').
Proof. unfold mbind, M_bind, bind. intros ->. reflexivity. Qed.

Lemma deref_run w l o : heap w !! l = Some o -> deref l w = (Returned o, w).
Proof. unfold deref. intros ->. reflexivity. Qed.

Lemma lookup_snoc {A} (l : list A) x : (l ++ [x]) !! length l = Some x.
Proof. now apply list_lookup_middle. Qed.

Lemma shape_sparse w mat csr g :
  heap w !! mat = Some (SparseMatrix csr g) ->
  shape mat 0 w = (Returned (Z.of_nat (length g)), w) /\
  shape mat 1 w = (Returned (Z.of_nat (length (hd [] g))), w).
Proof.
  intros H. unfold shape.
  split; rewrite (bind_returned _ _ _ _ _ (deref_run _ _ _ H)); reflexivity.
Qed.

Lemma ranges_run w mat csr g region region2 :
  heap w !! mat = Some (SparseMatrix csr g) ->
  ranges mat region region2 w = (Returned (ranges_for g region region2), w).
Proof.
  intros H. unfold ranges, ranges_for.
  destruct region as [[s1 e1] |]; [destruct region2 as [[s2 e2] |]; reflexivity |].
  destruct (shape_sparse _ _ _ _ H) as [H0 H1].
  rewrite (bind_returned _ _ _ _ _ H0), (bind_returned _ _ _ _ _ H1).
  reflexivity.
Qed.

Lemma copy_frame_run w l rows :
  heap w !! l = Some (DataFrame rows) ->
  copy l w = (Returned (length (heap w)),
              {| heap := heap w ++ [DataFrame rows]; calls := calls w;
                 stdout := stdout w; ds := ds w |}).
Proof.
  intros H. unfold copy.
  rewrite (bind_returned _ _ _ _ _ (deref_run _ _ _ H)). reflexivity.
Qed.

Lemma frame_loc_run w l rows mask :
  heap w !! l = Some (DataFrame rows) ->
  frame_loc l mask w = (Returned (length (heap w)),
                        {| heap := heap w ++ [DataFrame (List.filter mask rows)];
                           calls := calls w; stdout := stdout w; ds := ds w |}).
Proof.
  intros H. unfold frame_loc.
  rewrite (bind_returned _ _ _ _ _ (deref_run _ _ _ H)). reflexivity.
Qed.

Lemma frame_at_run w l rows :
  heap w !! l = Some (DataFrame rows) -> frame_at l w = (Returned rows, w).
Proof.
  intros H. unfold frame_at.
  rewrite (bind_returned _ _ _ _ _ (deref_run _ _ _ H)). reflexivity.
Qed.

Lemma getitem_run w l csr g s1 e1 s2 e2 :
  heap w !! l = Some (SparseMatrix csr g) ->
  getitem l s1 e1 s2 e2 w =
    (Returned (length (heap w)),
     {| heap := heap w ++ [SparseMatrix csr (slice2 s1 e1 s2 e2 g)];
        calls := calls w; stdout := stdout w; ds := ds w |}).
Proof.
  intros H. unfold getitem.
  rewrite (bind_returned _ _ _ _ _ (deref_run _ _ _ H)). reflexivity.
Qed.

Lemma todense_run w l csr g :
  heap w !! l = Some (SparseMatrix csr g) -> todense l w = (Returned g, w).
Proof.
  intros H. unfold todense.
  rewrite (bind_returned _ _ _ _ _ (deref_run _ _ _ H)). reflexivity.
Qed.

(** The slice is taken from the CSR form of the matrix; the store grows by
    that form when the matrix was in another format. *)
Lemma tocsr_getitem_run w mat csr g s1 e1 s2 e2 (k : loc -> M unit) :
  heap w !! mat = Some (SparseMatrix csr g) ->
  (c ← tocsr mat; sub_mat ← getitem c s1 e1 s2 e2; k sub_mat) w =
  let h := heap w ++ (if csr then [] else [SparseMatrix true g]) in
  k (length h)
    {| heap := h ++ [SparseMatrix true (slice2 s1 e1 s2 e2 g)];
       calls := calls w; stdout := stdout w; ds := ds w |}.
Proof.
  intros H.
  assert (Hcsr : tocsr mat w =
    (Returned (if csr then mat else length (heap w)),
     {| heap := heap w ++ (if csr then [] else [SparseMatrix true g]);
        calls := calls w; stdout := stdout w; ds := ds w |})).
  { unfold tocsr. rewrite (bind_returned _ _ _ _ _ (deref_run _ _ _ H)).
    destruct csr; [| reflexivity].
    unfold ret. rewrite app_nil_r. now destruct w. }
  rewrite (bind_returned _ _ _ _ _ Hcsr). cbv zeta.
  set (w1 := {| heap := heap w ++ (if csr then [] else [SparseMatrix true g]);
                calls := calls w; stdout := stdout w; ds := ds w |}).
  assert (Hc : heap w1 !! (if csr then mat else length (heap w))
               = Some (SparseMatrix true g)).
  { subst w1. simpl. destruct csr.
    - now apply lookup_app_l_Some.
    - apply lookup_snoc. }
  rewrite (bind_returned _ _ _ _ _ (getitem_run w1 _ _ _ s1 e1 s2 e2 Hc)).
  reflexivity.
Qed.

Lemma plot_whole_matrix_run env mat patterns out region region2 w m csr g rows :
  import_datashader env = Returned m ->
  heap w !! mat = Some (SparseMatrix csr g) ->
  heap w !! patterns = Some (DataFrame rows) ->
  (forall fname, out = Some fname -> writable env fname = true) ->
  plot_whole_matrix env mat patterns out region region2 w =
    let '(s1, e1, s2, e2) := ranges_for g region region2 in
    (Returned tt, whole_matrix_world w m csr g rows out s1 e1 s2 e2).
Proof.
  intros Himp Hmat Hpat Hout.
  unfold plot_whole_matrix, _check_datashader, wrapped, try_import. simpl.
  rewrite Himp.
  erewrite bind_returned by reflexivity.
  unfold plot_whole_matrix_fun.
  erewrite bind_returned by (apply (ranges_run _ _ csr g); exact Hmat).
  destruct (ranges_for g region region2) as [[[s1 e1] s2] e2].
  erewrite bind_returned by (apply copy_frame_run; exact Hpat).
  erewrite bind_returned by (apply frame_loc_run; simpl; apply lookup_snoc).
  rewrite (tocsr_getitem_run _ mat csr g).
  2:{ simpl. apply lookup_app_l_Some, lookup_app_l_Some, Hmat. }
  cbv zeta. simpl heap.
  erewrite bind_returned by (apply (todense_run _ _ true); simpl; apply lookup_snoc).
  erewrite bind_returned by reflexivity.
  erewrite bind_returned.
  2:{ apply frame_at_run. simpl.
      apply lookup_app_l_Some, lookup_app_l_Some, lookup_snoc. }
  erewrite bind_returned by reflexivity.
  unfold whole_matrix_world, new_objects, last_call.
  destruct out as [fname |]; simpl.
  - unfold savefig. rewrite (Hout fname eq_refl). unfold emit. simpl.
    rewrite <- !app_assoc. reflexivity.
  - unfold emit. simpl.
    rewrite <- !app_assoc. reflexivity.
Qed.

(** C1, as stated, fails: [plot_whole_matrix] returns after saving with its
    figure still open, and [distance_plot] with nothing to plot returns
    without touching a figure an earlier plot left open. *)
Lemma figures_left_open :
  let r1 := plot_whole_matrix sample_env 1 4 (Some "whole.png") None None sample_world in
  let r2 := distance_plot sample_env (array_list []) no_labels sample_world_drawn in
  (r1.1 = Returned tt
   /\ plt.open_figures (plt.render true (calls r1.2)) <> []
   /\ plt.open_figures (plt.render false (calls r1.2)) <> []
   /\ ~ closed r1.2)
  /\ (r2.1 = Returned tt
      /\ plt.open_figures (plt.render true (calls r2.2)) <> []
      /\ plt.open_figures (plt.render false (calls r2.2)) <> []
      /\ ~ closed r2.2).
Proof.
  assert (Hlast : forall cs c, c <> plt.Close_all ->
             ~ exists cs', cs ++ [c] = cs' ++ [plt.Close_all]).
  { intros cs c Hc [cs' E]. apply app_inj_tail in E. destruct E. congruence. }
  cbv zeta. repeat split; try (vm_compute; discriminate).
  - apply (Hlast [_; _] (plt.Savefig "whole.png" None)). discriminate.
  - apply (Hlast [] (plt.Title (PyStr "earlier"))). discriminate.
Qed.

Lemma figures_closed_on_return_witness :
  (exists w', pattern_plot sample_env 6 2 None PyNone sample_world = (Returned tt, w')
     /\ closed w'
     /\ forall blocking, plt.open_figures (plt.render blocking (calls w')) = [])
  /\ (exists w', pileup_plot sample_env 3 None None sample_world_drawn = (Returned tt, w')
        /\ closed w'
        /\ forall blocking, plt.open_figures (plt.render blocking (calls w')) = [])
  /\ (exists w', distance_plot sample_env_injected (array_list [3; 1]%nat)
                   (label_list [PyStr "a"; PyStr "b"]) sample_world_drawn
                 = (Returned tt, w')
        /\ closed w'
        /\ forall blocking, plt.open_figures (plt.render blocking (calls w')) = []).
Proof.
  split; [| split]; eexists; (split; [vm_compute; reflexivity |]).
  - apply (proj1 (figures_closed_on_return sample_env) 6%nat 2%nat None PyNone
             sample_world).
    vm_compute. reflexivity.
  - apply (proj1 (proj2 (figures_closed_on_return sample_env)) 3%nat None None
             sample_world_drawn).
    vm_compute. reflexivity.
  - apply (proj2 (proj2 (figures_closed_on_return sample_env_injected))
             (array_list [3; 1]%nat) (label_list [PyStr "a"; PyStr "b"])
             ltac:(discriminate) sample_world_drawn).
    vm_compute. reflexivity.
Defined.

(** ** C3 and C10: the ranges of [plot_whole_matrix] *)

(** C3: with [region = (s, e)] and no [region2], the call is the call with
    [region2 = (s, e)]: the slice of the matrix and the filter on the
    patterns both use [(s, e)] for the columns as for the rows. *)
Theorem region2_defaults_to_region env mat patterns out s e :
  plot_whole_matrix env mat patterns out (Some (s, e)) None
  = plot_whole_matrix env mat patterns out (Some (s, e)) (Some (s, e))
  /\ forall w m csr g rows,
      import_datashader env = Returned m ->
      heap w !! mat = Some (SparseMatrix csr g) ->
      heap w !! patterns = Some (DataFrame rows) ->
      (forall fname, out = Some fname -> writable env fname = true) ->
      plot_whole_matrix env mat patterns out (Some (s, e)) None w
      = (Returned tt, whole_matrix_world w m csr g rows out s e s e).
Proof.
  split; [reflexivity |].
  intros w m csr g rows Himp Hmat Hpat Hout.
  apply (plot_whole_matrix_run env mat patterns out (Some (s, e)) None
           w m csr g rows Himp Hmat Hpat Hout).
Qed.

(** The region of the bins 10 to 20 of a matrix of 25 bins: rows and
    columns 10 to 19 are drawn, and of the five patterns the two are kept
    whose two bins are both between 10 and 20.  With another range for
    the columns the call draws something else. *)
Lemma region2_defaults_to_region_witness :
  let r := plot_whole_matrix sample_env 0 1 (Some "region.pdf") (Some (10, 20)%Z) None
             sample_wide_world in
  r = (Returned tt,
       whole_matrix_world sample_wide_world (PyModule "datashader") false
         sample_wide_matrix sample_wide_table (Some "region.pdf") 10 20 10 20)
  /\ calls r.2
     = [plt.Imshow (slice2 10 20 10 20 sample_wide_matrix) plt.Log "Reds";
        plt.Scatter_points [2; 9]%Z [5; 1]%Z;
        plt.Savefig "region.pdf" None]
  /\ map length (slice2 10 20 10 20 sample_wide_matrix)
     = [10; 10; 10; 10; 10; 10; 10; 10; 10; 10]%nat
  /\ calls r.2
     <> calls (plot_whole_matrix sample_env 0 1 (Some "region.pdf")
                 (Some (10, 20)%Z) (Some (0, 25)%Z) sample_wide_world).2
  /\ calls r.2
     <> calls (plot_whole_matrix sample_env 0 1 (Some "region.pdf")
                 (Some (10, 20)%Z) (Some (0, 0)%Z) sample_wide_world).2.
Proof.
  cbv zeta.
  pose proof (proj2 (region2_defaults_to_region sample_env 0 1 (Some "region.pdf")
                       10 20)
                sample_wide_world (PyModule "datashader") false sample_wide_matrix
                sample_wide_table eq_refl eq_refl eq_refl
                ltac:(intros; reflexivity)) as Hrun.
  split; [exact Hrun |].
  rewrite Hrun.
  split; [vm_compute; reflexivity |].
  split; [vm_compute; reflexivity |].
  split; vm_compute; intros E; inversion E.
Defined.

Lemma in_region_spec s1 e1 s2 e2 r :
  in_region s1 e1 s2 e2 r = true
  <-> (s1 < bin1 r < e1)%Z /\ (s2 < bin2 r < e2)%Z.
Proof.
  unfold in_region. rewrite !andb_true_iff.
  rewrite !Z.gtb_lt, !Z.ltb_lt. lia.
Qed.

Lemma wrap64_small z : (- 2 ^ 63 <= z < 2 ^ 63)%Z -> wrap64 z = z.
Proof.
  intros Hz. unfold wrap64. rewrite Z.mod_small by lia. lia.
Qed.


(** The difference between a bin inside a range and the start of the
    range, when the range is no longer than [2 ^ 63]. *)
Lemma sub64_inside (rows : list pattern_row) (bin : pattern_row -> Z) s e :
  (e - s <= 2 ^ 63)%Z ->
  (forall r, In r rows -> (s < bin r < e)%Z) ->
  map (fun r => sub64 (bin r) s) rows = map (fun r => (bin r - s)%Z) rows.
Proof.
  intros Hlen Hin. apply map_ext_in. intros r Hr.
  specialize (Hin r Hr). unfold sub64. apply wrap64_small. lia.
Qed.

(** The first element of a slice that starts inside the list. *)
Lemma py_slice_first {A} (l : list A) (s e : Z) x :
  (0 <= s < e)%Z -> l !! Z.to_nat s = Some x -> py_slice s e l !! 0%nat = Some x.
Proof.
  intros Hse Hx. pose proof (lookup_lt_Some _ _ _ Hx) as Hlt.
  unfold py_slice.
  replace (s <? 0)%Z with false by (symmetry; apply Z.ltb_ge; lia).
  replace (e <? 0)%Z with false by (symmetry; apply Z.ltb_ge; lia).
  rewrite lookup_take_lt by lia.
  rewrite lookup_drop.
  replace (Z.to_nat (Z.min s (Z.of_nat (length l))) + 0)%nat with (Z.to_nat s) by lia.
  exact Hx.
Qed.

Lemma lookup_map {A B} (f : A -> B) (l : list A) (i : nat) :
  map f l !! i = option_map f (l !! i).
Proof. revert i. induction l as [| a l IH]; intros [| i]; simpl; auto. Qed.

(** C10: the overlay keeps a pattern if and only if both bins are strictly
    inside their range, so a pattern on the first row or column of the
    slice, or on the row or column just after it, is left out, although
    the slice starts with row [s1] and column [s2]. *)
Theorem patterns_kept_strictly_inside s1 e1 s2 e2 :
  (forall r, in_region s1 e1 s2 e2 r = true
             <-> (s1 < bin1 r < e1)%Z /\ (s2 < bin2 r < e2)%Z)
  /\ (forall r, bin1 r = s1 \/ bin1 r = e1 \/ bin2 r = s2 \/ bin2 r = e2 ->
                in_region s1 e1 s2 e2 r = false)
  /\ (forall (g : grid) row x,
         (0 <= s1 < e1)%Z -> (0 <= s2 < e2)%Z ->
         g !! Z.to_nat s1 = Some row -> row !! Z.to_nat s2 = Some x ->
         exists row', slice2 s1 e1 s2 e2 g !! 0%nat = Some row'
                      /\ row' = py_slice s2 e2 row /\ row' !! 0%nat = Some x)
  /\ (forall env mat patterns out region region2 w m csr g rows,
         import_datashader env = Returned m ->
         heap w !! mat = Some (SparseMatrix csr g) ->
         heap w !! patterns = Some (DataFrame rows) ->
         (forall fname, out = Some fname -> writable env fname = true) ->
         ranges_for g region region2 = (s1, e1, s2, e2) ->
         exists kept w',
           plot_whole_matrix env mat patterns out region region2 w = (Returned tt, w')
           /\ (forall r, In r kept
                         <-> In r rows /\ (s1 < bin1 r < e1)%Z /\ (s2 < bin2 r < e2)%Z)
           /\ calls w' = calls w ++
                [plt.Imshow (slice2 s1 e1 s2 e2 g) plt.Log "Reds";
                 plt.Scatter_points (map (fun r => sub64 (bin1 r) s1) kept)
                                    (map (fun r => sub64 (bin2 r) s2) kept);
                 last_call out]
           /\ ((e1 - s1 <= 2 ^ 63)%Z ->
               map (fun r => sub64 (bin1 r) s1) kept
               = map (fun r => (bin1 r - s1)%Z) kept)
           /\ ((e2 - s2 <= 2 ^ 63)%Z ->
               map (fun r => sub64 (bin2 r) s2) kept
               = map (fun r => (bin2 r - s2)%Z) kept)).
Proof.
  split; [| split; [| split]].
  - intros r. apply in_region_spec.
  - intros r H. apply not_true_is_false. rewrite in_region_spec. lia.
  - intros g row x H1 H2 Hrow Hx.
    exists (py_slice s2 e2 row). split; [| split; [reflexivity |]].
    + unfold slice2.
      rewrite lookup_map, (py_slice_first g s1 e1 row H1 Hrow). reflexivity.
    + now apply py_slice_first.
  - intros env mat patterns out region region2 w m csr g rows
      Himp Hmat Hpat Hout Hranges.
    pose proof (plot_whole_matrix_run env mat patterns out region region2
                  w m csr g rows Himp Hmat Hpat Hout) as Hrun.
    rewrite Hranges in Hrun.
    exists (List.filter (in_region s1 e1 s2 e2) rows). eexists.
    split; [exact Hrun |].
    assert (Hkept : forall r, In r (List.filter (in_region s1 e1 s2 e2) rows)
                              <-> In r rows /\ (s1 < bin1 r < e1)%Z
                                  /\ (s2 < bin2 r < e2)%Z).
    { intros r. rewrite filter_In, in_region_spec. tauto. }
    split; [exact Hkept |]. split; [reflexivity |].
    split;
      [intros Hlen; apply (sub64_inside _ bin1 s1 e1 Hlen)
      | intros Hlen; apply (sub64_inside _ bin2 s2 e2 Hlen)];
      intros r Hr; apply Hkept in Hr; tauto.
Qed.

Lemma patterns_kept_strictly_inside_witness :
  (exists row', slice2 1 3 1 3 sample_matrix !! 0%nat = Some row'
                /\ row' = py_slice 1 3 [1; 5; 2]%float
                /\ row' !! 0%nat = Some 5%float)
  /\ exists kept w',
    plot_whole_matrix sample_env 1 4 None (Some (0, 2)%Z) (Some (1, 3)%Z) sample_world
    = (Returned tt, w')
    /\ (forall r, In r kept
                  <-> In r sample_table /\ (0 < bin1 r < 2)%Z /\ (1 < bin2 r < 3)%Z)
    /\ calls w' = calls sample_world ++
         [plt.Imshow (slice2 0 2 1 3 sample_matrix) plt.Log "Reds";
          plt.Scatter_points (map (fun r => sub64 (bin1 r) 0) kept)
                             (map (fun r => sub64 (bin2 r) 1) kept);
          last_call None]
    /\ ((2 - 0 <= 2 ^ 63)%Z ->
        map (fun r => sub64 (bin1 r) 0) kept = map (fun r => (bin1 r - 0)%Z) kept)
    /\ ((3 - 1 <= 2 ^ 63)%Z ->
        map (fun r => sub64 (bin2 r) 1) kept = map (fun r => (bin2 r - 1)%Z) kept).
Proof.
  split.
  - apply (proj1 (proj2 (proj2 (patterns_kept_strictly_inside 1 3 1 3)))
             sample_matrix [1; 5; 2]%float 5%float); (lia || reflexivity).
  - apply (proj2 (proj2 (proj2 (patterns_kept_strictly_inside 0 2 1 3)))
             sample_env 1%nat 4%nat None (Some (0, 2)%Z) (Some (1, 3)%Z) sample_world
             (PyModule "datashader") true sample_matrix sample_table);
      reflexivity || discriminate.
Defined.

(** ** C4: the decorator *)

(** C4: when importing datashader raises an [ImportError], the decorated
    function prints a line that names the function it decorates and raises
    the very same exception; the function itself is not run. *)
Theorem check_datashader_reraises {A B} env (fun_ : pyfunction A B) args w e :
  import_datashader env = Raised e ->
  is_ImportError e = true ->
  fn_name (_check_datashader env fun_) = fn_name fun_
  /\ fn_call (_check_datashader env fun_) args w
     = (Raised e,
        {| heap := heap w; calls := calls w;
           stdout := stdout w ++
             [("The datashader package is required to use " ++ fn_name fun_
               ++ ", please install it first")%string];
           ds := ds w |}).
Proof.
  intros Himp Hcatch. split; [reflexivity |].
  simpl. unfold wrapped, try_import. rewrite Himp, Hcatch.
  reflexivity.
Qed.

Lemma check_datashader_reraises_witness :
  plot_whole_matrix sample_env_no_datashader 1 4 None None None sample_world
  = (Raised (ModuleNotFoundError "No module named 'datashader'"),
     {| heap := sample_heap; calls := [];
        stdout := ["The datashader package is required to use plot_whole_matrix, please install it first"];
        ds := None |}).
Proof.
  apply (proj2 (check_datashader_reraises sample_env_no_datashader
                  {| fn_name := "plot_whole_matrix";
                     fn_call := plot_whole_matrix_fun sample_env_no_datashader |}
                  (1%nat, 4%nat, None, None, None) sample_world
                  (ModuleNotFoundError "No module named 'datashader'")
                  eq_refl eq_refl)).
Defined.

(** ** C5 and C6: the names [distance_plot] does not find *)

(** The loop of [distance_plot] runs at least once when there is a matrix,
    unless an empty list of labels was passed. *)
Lemma distance_loop_runs matrices labels :
  matrix_list_of matrices <> [] ->
  labels <> label_list [] ->
  exists matrix name rest,
    combine (matrix_list_of matrices) (labels_of (matrix_list_of matrices) labels)
    = (matrix, name) :: rest.
Proof.
  intros Hm Hl.
  destruct (matrix_list_of matrices) as [| m ms]; [congruence |].
  destruct labels as [| s | [| l ls]]; simpl; eauto. congruence.
Qed.

(** C5: wherever the loop body of [distance_plot] runs, it stops at the
    first name it does not find: at [utils] when that is not bound, and at
    [savgol_filter] when [utils] is bound and its distance law returned an
    array. *)
Theorem distance_plot_name_errors env matrices labels w :
  matrix_list_of matrices <> [] ->
  labels <> label_list [] ->
  (utils_distance_law env = None ->
   distance_plot env matrices labels w = (Raised (NameError "utils"), w))
  /\ (forall distance_law matrix name rest dist a w1,
         utils_distance_law env = Some distance_law ->
         savgol_filter env = None ->
         combine (matrix_list_of matrices)
           (labels_of (matrix_list_of matrices) labels) = (matrix, name) :: rest ->
         distance_law matrix w = (Returned dist, w1) ->
         heap w1 !! dist = Some (NDArray a) ->
         (distance_plot env matrices labels w).1 = Raised (NameError "savgol_filter")).
Proof.
  intros Hm Hl. split.
  - intros Hutils.
    destruct (distance_loop_runs matrices labels Hm Hl) as (matrix & name & rest & E).
    unfold distance_plot. cbv zeta. rewrite E. simpl.
    apply bind_raised. unfold distance_body.
    apply bind_raised. unfold call_distance_law. rewrite Hutils. reflexivity.
  - intros distance_law matrix name rest dist a w1 Hutils Hsavgol E Hdist Ha.
    unfold distance_plot. cbv zeta. rewrite E. simpl.
    erewrite bind_raised; [reflexivity |].
    unfold distance_body.
    erewrite bind_returned by (unfold call_distance_law; rewrite Hutils; exact Hdist).
    assert (Harr : array_at dist w1 = (Returned a, w1)).
    { unfold array_at. now rewrite (bind_returned _ _ _ _ _ (deref_run _ _ _ Ha)). }
    rewrite (bind_returned _ _ _ _ _ Harr). cbv zeta.
    erewrite bind_returned.
    2:{ unfold zero_nans. rewrite (bind_returned _ _ _ _ _ (deref_run _ _ _ Ha)).
        reflexivity. }
    apply bind_raised. unfold call_savgol_filter. rewrite Hsavgol. reflexivity.
Qed.

(** The module with [utils] bound by an importer, [savgol_filter] not. *)
Lemma distance_plot_name_errors_witness :
  let env := {| utils_distance_law := Some sample_distance_law;
                savgol_filter := None;
                import_datashader := Returned (PyModule "datashader");
                writable := fun _ => true;
                float_repr := fun _ => "0.0" |} in
  distance_plot sample_env (one_array 3) no_labels sample_world
  = (Raised (NameError "utils"), sample_world)
  /\ (distance_plot env (one_array 3) no_labels sample_world).1
     = Raised (NameError "savgol_filter").
Proof.
  cbv zeta. split.
  - apply (proj1 (distance_plot_name_errors sample_env (one_array 3) no_labels
                    sample_world ltac:(discriminate) ltac:(discriminate))).
    reflexivity.
  - eapply (proj2 (distance_plot_name_errors _ (one_array 3) no_labels
                     sample_world ltac:(discriminate) ltac:(discriminate)));
      reflexivity.
Defined.

(** C6: in the module as it is, a call with one matrix and one label raises
    [NameError] in the first round of the loop: no call reaches pyplot and
    no file is written. *)
Theorem distance_plot_writes_no_file :
  distance_plot sample_env (array_list [3%nat]) (label_list [PyStr "a"]) sample_world
  = (Raised (NameError "utils"), sample_world)
  /\ forall blocking,
      plt.written
        (plt.render blocking
           (calls (distance_plot sample_env (array_list [3%nat])
                     (label_list [PyStr "a"]) sample_world).2)) = [].
Proof. split; [| intros b]; reflexivity. Qed.

(** With both names supplied, the same kind of call writes one file for
    each matrix, at [<label>/.pdf3]. *)
Example distance_plot_injected_writes :
  let r := distance_plot sample_env_injected (array_list [3; 1]%nat)
             (label_list [PyStr "a"; PyStr "b"]) sample_world in
  r.1 = Returned tt
  /\ map fst (plt.written (plt.render false (calls r.2))) = ["a/.pdf3"; "b/.pdf3"].
Proof. split; vm_compute; reflexivity. Qed.

(** With the default labels the loop stops at [pathlib.Path(name)]: the
    label is an int. *)
Example distance_plot_default_labels :
  (distance_plot sample_env_injected (one_array 3) no_labels sample_world).1
  = Raised (TypeError "expected str, bytes or os.PathLike object").
Proof. vm_compute. reflexivity. Qed.

(** ** The calls of [pattern_plot] *)

Lemma py_ne_NA v : py_ne v (PyStr "NA") = true -> v <> PyStr "NA".
Proof. intros H ->. discriminate H. Qed.

Lemma py_eq_str v s : py_eq v (PyStr s) = true -> v = PyStr s.
Proof.
  destruct v; simpl; try discriminate.
  intros H. apply String.eqb_eq in H. now subst.
Qed.

Lemma draws_refl good w : draws good w w.
Proof.
  repeat split. exists []. split; [now rewrite app_nil_r | constructor].
Qed.

Lemma draws_trans good w1 w2 w3 :
  draws good w1 w2 -> draws good w2 w3 -> draws good w1 w3.
Proof.
  intros (Hh & Hs & Hd & cs & Hc & Hg) (Hh' & Hs' & Hd' & cs' & Hc' & Hg').
  repeat split; try congruence.
  exists (cs ++ cs'). split.
  - rewrite Hc', Hc. now rewrite app_assoc.
  - now apply Forall_app.
Qed.

Lemma draws_emit (good : plt.call -> Prop) c w :
  good c -> draws good w (emit c w).2.
Proof.
  intros Hc. repeat split. exists [c]. split; [reflexivity |].
  now constructor.
Qed.

Lemma for_each_draws {A} good (xs : list A) (body : A -> M unit) :
  (forall x w, In x xs -> draws good w (body x w).2) ->
  forall w, draws good w (for_each xs body w).2.
Proof.
  induction xs as [| x rest IH]; intros Hbody w; simpl.
  - apply draws_refl.
  - pose proof (Hbody x w (or_introl eq_refl)) as Hx.
    unfold mbind, M_bind, bind.
    destruct (body x w) as [[[] | e] w1]; simpl in *; [| exact Hx].
    eapply draws_trans; [exact Hx |].
    apply IH. intros y w' Hy. apply Hbody. now right.
Qed.

Lemma border_body_draws name its all_patterns border w :
  In (PyStr "borders", all_patterns) its ->
  In border all_patterns ->
  draws (marker_of name its) w (border_body name border w).2.
Proof.
  intros Hkey Hin.
  unfold border_body, index, unpack4, mbind, M_bind, bind, ret, raise.
  destruct border as [| b0 [| b1 [| pos1 [| sc [| extra rest]]]]]; simpl;
    try apply draws_refl;
    destruct (py_ne b0 name) eqn:E0; simpl; try apply draws_refl;
    destruct (py_ne b1 (PyStr "NA")) eqn:E1; simpl; try apply draws_refl.
  apply draws_emit.
  apply (border_marker name its all_patterns b0 b1 pos1 sc); auto.
  - unfold py_ne in E0. now apply negb_false_iff in E0.
  - now apply py_ne_NA.
Qed.

Lemma loop_body_draws name its all_patterns loop w :
  In (PyStr "loops", all_patterns) its ->
  In loop all_patterns ->
  draws (marker_of name its) w (loop_body name loop w).2.
Proof.
  intros Hkey Hin.
  unfold loop_body, index, unpack4, mbind, M_bind, bind, ret, raise.
  destruct loop as [| l0 [| l1 [| pos1 [| sc [| extra rest]]]]]; simpl;
    try apply draws_refl;
    destruct (py_ne l0 name) eqn:E0; simpl; try apply draws_refl;
    destruct (py_ne l1 (PyStr "NA")) eqn:E1; simpl; try apply draws_refl.
  apply draws_emit.
  apply (loop_marker name its all_patterns l0 l1 pos1 sc); auto.
  - unfold py_ne in E0. now apply negb_false_iff in E0.
  - now apply py_ne_NA.
Qed.

Lemma patterns_body_draws name its item w :
  In item its ->
  draws (marker_of name its) w (patterns_body name item w).2.
Proof.
  intros Hin. destruct item as [pattern_type all_patterns].
  unfold patterns_body.
  destruct (py_eq pattern_type (PyStr "borders")) eqn:Eb.
  - apply py_eq_str in Eb. subst pattern_type.
    apply for_each_draws. intros. now apply (border_body_draws _ _ all_patterns).
  - destruct (py_eq pattern_type (PyStr "loops")) eqn:El.
    + apply py_eq_str in El. subst pattern_type.
      apply for_each_draws. intros. now apply (loop_body_draws _ _ all_patterns).
    + apply draws_refl.
Qed.

Lemma mat_todense_reads contact_map w : (mat_todense contact_map w).2 = w.
Proof.
  unfold mat_todense, deref, mbind, M_bind, bind, ret, raise.
  destruct (heap w !! contact_map) as [[] |]; simpl; try reflexivity.
  destruct (heap w !! mat) as [[] |]; reflexivity.
Qed.

Lemma items_reads patterns w :
  (items patterns w).2 = w
  /\ forall its, (items patterns w).1 = Returned its -> its = patterns_at w patterns.
Proof.
  unfold items, patterns_at, deref, mbind, M_bind, bind, ret, raise.
  destruct (heap w !! patterns) as [[] |]; simpl; split;
    try reflexivity; intros its H; now inversion H.
Qed.

Lemma pattern_plot_traced env contact_map patterns output name w :
  pattern_plot_trace env patterns output name w
    (pattern_plot env contact_map patterns output name w).1
    (pattern_plot env contact_map patterns output name w).2.
Proof.
  unfold pattern_plot. cbv zeta.
  set (frame := default_name name).
  (* the image *)
  pose proof (mat_todense_reads contact_map w) as Hread.
  destruct (mat_todense contact_map w) as [[dense | e] w0] eqn:E0;
    simpl in Hread; subst w0.
  2:{ rewrite (bind_raised _ _ _ _ _ E0). simpl.
      repeat split. exists [], [], []. rewrite app_nil_r. auto. }
  rewrite (bind_returned _ _ _ _ _ E0).
  do 3 (erewrite bind_returned by reflexivity).
  cbn [heap calls stdout ds].
  match goal with
  | |- pattern_plot_trace _ _ _ _ _ (?m ?x).1 _ => set (w1 := x)
  end.
  assert (Hw1 : draws (fun _ => True) w w1
                /\ calls w1 = calls w ++ [plt.Imshow dense plt.Power015 "afmhot_r";
                                           plt.Title frame; plt.Colorbar]).
  { subst w1. simpl. rewrite <- !app_assoc. split; [| reflexivity].
    repeat split. simpl. eexists. split; [reflexivity |].
    repeat constructor. }
  destruct Hw1 as [(Hh1 & Hs1 & Hd1 & _) Hc1]. clearbody w1.
  (* the loop over the patterns *)
  destruct (items_reads patterns w1) as [Hread Hits].
  destruct (items patterns w1) as [[its | e] w1'] eqn:E1;
    simpl in Hread; subst w1'.
  2:{ rewrite (bind_raised _ _ _ _ _ E1). simpl.
      repeat split; try assumption.
      eexists _, [], []. rewrite app_nil_r. split; [exact Hc1 |]. eauto. }
  rewrite (bind_returned _ _ _ _ _ E1).
  specialize (Hits its eq_refl).
  assert (Hsame : patterns_at w1 patterns = patterns_at w patterns)
    by (unfold patterns_at; now rewrite Hh1).
  rewrite Hsame in Hits. subst its.
  pose proof (for_each_draws (marker_of frame (patterns_at w patterns))
                (patterns_at w patterns) (patterns_body frame)
                (fun x w' Hx => patterns_body_draws frame _ x w' Hx) w1)
    as (Hh2 & Hs2 & Hd2 & markers & Hc2 & Hmarkers).
  destruct (for_each (patterns_at w patterns) (patterns_body frame) w1)
    as [[[] | e] w2] eqn:E2; simpl in Hh2, Hs2, Hd2, Hc2.
  2:{ rewrite (bind_raised _ _ _ _ _ E2). simpl.
      repeat split; try congruence.
      eexists _, markers, []. rewrite app_nil_r, Hc2, Hc1, <- app_assoc.
      split; [reflexivity |]. eauto. }
  rewrite (bind_returned _ _ _ _ _ E2).
  (* the file *)
  destruct (py_add frame (PyInt 1)) as [next | e] eqn:E3.
  2:{ simpl. repeat split; try congruence.
      eexists _, markers, []. rewrite app_nil_r, Hc2, Hc1, <- app_assoc.
      split; [reflexivity |]. eauto. }
  simpl lift. erewrite bind_returned by reflexivity.
  unfold savefig. fold (emplacement_of env output next).
  destruct (writable env (emplacement_of env output next)).
  - erewrite bind_returned by reflexivity. unfold pattern_plot_trace. simpl.
    repeat split; try congruence.
    eexists _, markers, _. rewrite Hc2, Hc1.
    split; [| split; [eauto | split; [exact Hmarkers | eauto]]].
    rewrite <- !app_assoc. reflexivity.
  - erewrite bind_raised by reflexivity. simpl.
    repeat split; try congruence.
    eexists _, markers, []. rewrite app_nil_r, Hc2, Hc1, <- app_assoc.
    split; [reflexivity |]. eauto.
Qed.


(** ** The paths of the files *)

Lemma split_no_slash s : has_slash s = false -> pathlib.split s = [s].
Proof.
  induction s as [| c r IH]; simpl; [reflexivity |].
  intros H. apply orb_false_iff in H. destruct H as [Hc Hr].
  rewrite Hc, (IH Hr). reflexivity.
Qed.

Lemma has_slash_app a b : has_slash (a ++ b) = has_slash a || has_slash b.
Proof.
  induction a as [| c r IH]; simpl; [reflexivity |].
  rewrite IH. now rewrite orb_assoc.
Qed.

Lemma has_slash_uint d : has_slash (NilEmpty.string_of_uint d) = false.
Proof. induction d; simpl; auto. Qed.

Lemma has_slash_str_of_int n : has_slash (str_of_int n) = false.
Proof.
  unfold str_of_int, NilZero.string_of_int, NilZero.string_of_uint.
  destruct (Z.to_int n) as [d | d]; simpl.
  - destruct d; try reflexivity; simpl; apply has_slash_uint.
  - destruct d; try reflexivity; simpl; apply has_slash_uint.
Qed.

(** A string without a slash that is neither empty nor ["."] is the path
    of one component. *)
Lemma of_str_file s :
  has_slash s = false -> s <> "" -> s <> "." ->
  pathlib.of_str s = {| pathlib.root := ""; pathlib.names := [s] |}.
Proof.
  intros Hs Hne Hdot. unfold pathlib.of_str, pathlib.splitroot.
  destruct s as [| c r]; [congruence |].
  simpl in Hs. apply orb_false_iff in Hs. destruct Hs as [Hc Hr].
  rewrite Hc. rewrite split_no_slash by (simpl; now rewrite Hc, Hr).
  simpl. unfold pathlib.is_name.
  replace (String.eqb (String c r) "") with false by reflexivity.
  destruct (String.eqb (String c r) ".") eqn:E; [| reflexivity].
  apply String.eqb_eq in E. congruence.
Qed.

Lemma joinpath_file dir s :
  has_slash s = false -> s <> "" -> s <> "." ->
  pathlib.joinpath dir (pathlib.of_str s) = in_dir dir s.
Proof.
  intros Hs Hne Hdot. rewrite (of_str_file s Hs Hne Hdot). reflexivity.
Qed.

Lemma pdf_name_is_file n :
  let file := (str_of_int n ++ ".2.pdf")%string in
  has_slash file = false /\ file <> "" /\ file <> ".".
Proof.
  cbv zeta. split; [| split].
  - rewrite has_slash_app, has_slash_str_of_int. reflexivity.
  - destruct (str_of_int n); discriminate.
  - destruct (str_of_int n) as [| c [| c' r]]; discriminate.
Qed.

Lemma written_draw blocking cs cv :
  Forall (fun c => ~ is_savefig c) cs ->
  plt.written (fold_left (plt.step blocking) cs cv) = plt.written cv.
Proof.
  intros H. revert cv. induction H as [| c cs Hc _ IH]; intros cv; simpl.
  - reflexivity.
  - rewrite IH. destruct c; simpl in *; try reflexivity. tauto.
Qed.

Lemma marker_of_draws name its c : marker_of name its c -> ~ is_savefig c.
Proof. intros []; simpl; tauto. Qed.

(** ** C2 and C9: which records get a marker *)

Lemma py_eq_str_false v s : v <> PyStr s -> py_eq v (PyStr s) = false.
Proof.
  intros H. destruct (py_eq v (PyStr s)) eqn:E; [| reflexivity].
  apply py_eq_str in E. contradiction.
Qed.

(** Every marker among the calls of [pattern_plot] is a marker of the
    frame. *)
Lemma pattern_plot_markers env contact_map patterns output name w :
  exists cs,
    calls (pattern_plot env contact_map patterns output name w).2 = calls w ++ cs
    /\ forall c, In c cs -> is_marker c ->
                 marker_of (default_name name) (patterns_at w patterns) c.
Proof.
  destruct (pattern_plot_traced env contact_map patterns output name w)
    as (_ & _ & _ & pre & markers & post & Hc & Hpre & Hm & Hpost).
  exists (pre ++ markers ++ post). split; [exact Hc |].
  intros c Hin Hmark.
  rewrite !in_app_iff in Hin. destruct Hin as [Hin | [Hin | Hin]].
  - destruct Hpre as [-> | [dense ->]]; simpl in Hin;
      intuition (subst; simpl in Hmark; tauto).
  - rewrite Forall_forall in Hm. apply Hm. now apply list_elem_of_In.
  - destruct (pattern_plot env contact_map patterns output name w).1.
    + destruct Hpost as (next & _ & ->). simpl in Hin.
      intuition (subst; simpl in Hmark; tauto).
    + subst post. destruct Hin.
Qed.

(** C9: a marker is drawn only for a record under ["borders"] or ["loops"]
    whose first field equals [name] (0 when [name] is [None]); a record
    whose first field differs is passed over, and so is everything under
    another key. *)
Theorem markers_only_for_frame env contact_map patterns output name :
  (forall w, exists cs,
      calls (pattern_plot env contact_map patterns output name w).2 = calls w ++ cs
      /\ forall c, In c cs -> is_marker c ->
                   marker_of (default_name name) (patterns_at w patterns) c)
  /\ (forall w record f,
         record !! 0%nat = Some f ->
         py_ne f (default_name name) = true ->
         border_body (default_name name) record w = (Returned tt, w)
         /\ loop_body (default_name name) record w = (Returned tt, w))
  /\ (forall w pattern_type all_patterns,
         pattern_type <> PyStr "borders" ->
         pattern_type <> PyStr "loops" ->
         patterns_body (default_name name) (pattern_type, all_patterns) w
         = (Returned tt, w)).
Proof.
  split; [| split].
  - intros w. apply pattern_plot_markers.
  - intros w record f H0 Hne.
    unfold border_body, loop_body, index.
    rewrite H0. split; (erewrite bind_returned by reflexivity); now rewrite Hne.
  - intros w pattern_type all_patterns Hb Hl.
    unfold patterns_body.
    now rewrite (py_eq_str_false _ _ Hb), (py_eq_str_false _ _ Hl).
Qed.

Lemma markers_only_for_frame_witness :
  (border_body (PyInt 0) [PyInt 1; PyInt 2; PyInt 2; PyFloat 0.25] sample_world
   = (Returned tt, sample_world)
   /\ loop_body (PyInt 0) [PyInt 1; PyInt 2; PyInt 2; PyFloat 0.25] sample_world
      = (Returned tt, sample_world))
  /\ patterns_body (PyInt 0)
       (PyStr "hairpins", [[PyInt 0; PyInt 1; PyInt 2; PyFloat 0.5]]) sample_world
     = (Returned tt, sample_world).
Proof.
  split.
  - apply (proj1 (proj2 (markers_only_for_frame sample_env 6%nat 2%nat None PyNone))
             sample_world [PyInt 1; PyInt 2; PyInt 2; PyFloat 0.25] (PyInt 1));
      reflexivity.
  - apply (proj2 (proj2 (markers_only_for_frame sample_env 6%nat 2%nat None PyNone))
             sample_world (PyStr "hairpins")); discriminate.
Defined.




(** ** C8: the arguments are left as they are *)

Lemma untouched_refl w : untouched w w.
Proof. intros l o H. exact H. Qed.

Lemma untouched_trans w1 w2 w3 :
  untouched w1 w2 -> untouched w2 w3 -> untouched w1 w3.
Proof. intros H12 H23 l o H. apply H23, H12, H. Qed.

Lemma keeps_ret {A} (a : A) : keeps (ret a).
Proof. intros w. apply untouched_refl. Qed.

Lemma keeps_raise {A} e : keeps (@raise A e).
Proof. intros w. apply untouched_refl. Qed.

Lemma keeps_bind {A B} (m : M A) (k : A -> M B) :
  keeps m -> (forall a, keeps (k a)) -> keeps (m ≫= k).
Proof.
  intros Hm Hk w. specialize (Hm w).
  unfold mbind, M_bind, bind.
  destruct (m w) as [[a | e] w1]; simpl in *; [| exact Hm].
  eapply untouched_trans; [exact Hm | apply Hk].
Qed.

Lemma keeps_for_each {A} (xs : list A) (body : A -> M unit) :
  (forall x, keeps (body x)) -> keeps (for_each xs body).
Proof.
  intros Hbody. induction xs as [| x rest IH]; simpl.
  - apply keeps_ret.
  - apply keeps_bind; [apply Hbody | intros _; exact IH].
Qed.

Lemma keeps_deref l : keeps (deref l).
Proof.
  intros w. unfold deref. destruct (heap w !! l); apply untouched_refl.
Qed.

Lemma keeps_alloc o : keeps (alloc o).
Proof. intros w l o' H. simpl. now apply lookup_app_l_Some. Qed.

Lemma keeps_emit c : keeps (emit c).
Proof. intros w l o H. exact H. Qed.

Lemma keeps_print line : keeps (print line).
Proof. intros w l o H. exact H. Qed.

Lemma keeps_set_ds m : keeps (set_ds m).
Proof. intros w l o H. exact H. Qed.

Lemma keeps_lift {A} (r : outcome A) : keeps (lift r).
Proof. destruct r; [apply keeps_ret | apply keeps_raise]. Qed.

(** Walks through a function made of reads, allocations and calls to
    pyplot. *)
Ltac keeps_step :=
  first
    [ apply keeps_bind; [| intros ?]
    | apply keeps_for_each; intros ?
    | apply keeps_ret | apply keeps_raise | apply keeps_deref
    | apply keeps_alloc | apply keeps_emit | apply keeps_print
    | apply keeps_set_ds | apply keeps_lift
    | match goal with
      | |- keeps (match ?x with _ => _ end) => destruct x
      | |- keeps (if ?b then _ else _) => destruct b
      end ].

Ltac keeps_all := repeat keeps_step.

Lemma keeps_savefig env fname format : keeps (savefig env fname format).
Proof. unfold savefig. keeps_all. Qed.

Lemma keeps_array_at l : keeps (array_at l).
Proof. unfold array_at. keeps_all. Qed.

Lemma keeps_plot_xy x y fmt : keeps (plot_xy x y fmt).
Proof. unfold plot_xy. keeps_all. Qed.

Lemma keeps_Path_of v : keeps (Path_of v).
Proof. unfold Path_of. keeps_all. Qed.

Lemma keeps_pattern_plot env contact_map patterns output name :
  keeps (pattern_plot env contact_map patterns output name).
Proof.
  unfold pattern_plot, mat_todense, items, patterns_body, border_body, loop_body,
    index, unpack4.
  cbv zeta. keeps_all; apply keeps_savefig.
Qed.

Lemma keeps_pileup_plot env pileup_pattern name output :
  keeps (pileup_plot env pileup_pattern name output).
Proof.
  unfold pileup_plot, image_data. cbv zeta.
  keeps_all; first [apply keeps_Path_of | apply keeps_savefig].
Qed.

Lemma keeps_plot_whole_matrix env mat patterns out region region2 :
  keeps (plot_whole_matrix env mat patterns out region region2).
Proof.
  unfold plot_whole_matrix, _check_datashader, wrapped, try_import,
    plot_whole_matrix_fun, ranges, shape, copy, frame_loc, tocsr, getitem,
    todense, frame_at.
  simpl. keeps_all; apply keeps_savefig.
Qed.

Lemma array_at_reads l w : (array_at l w).2 = w.
Proof.
  unfold array_at, deref, mbind, M_bind, bind.
  destruct (heap w !! l) as [[| | | | | | base sel] |]; simpl; try reflexivity.
  destruct (heap w !! base) as [[| | a | | | |] |]; simpl; try reflexivity.
  destruct (select (cells a) sel); reflexivity.
Qed.

(** Writing behind a reference that referred to nothing leaves what was
    there alone. *)
Lemma untouched_assign w0 w l o :
  heap w0 !! l = None -> untouched w0 w -> untouched w0 (assign l o w).2.
Proof.
  intros Hl H l' o' Hl'. simpl.
  rewrite list_lookup_insert_ne by congruence.
  now apply H.
Qed.

(** Line 69 writes into the array behind [y], or, when [y] is a view, into
    the array whose memory it shares. *)
Lemma zero_nans_fresh w0 w y :
  heap w0 !! y = None ->
  (forall base sel, heap w !! y = Some (NDView base sel) -> heap w0 !! base = None) ->
  untouched w0 w -> untouched w0 (zero_nans y w).2.
Proof.
  intros Hy Hview H.
  unfold zero_nans, deref, mbind, M_bind, bind.
  destruct (heap w !! y) as [[| | a | | | | base sel] |]; simpl; try exact H.
  - now apply untouched_assign.
  - specialize (Hview base sel eq_refl).
    destruct (heap w !! base) as [[| | a | | | |] |]; simpl; try exact H.
    now apply untouched_assign.
Qed.

(** An array [m] has just made, with memory of its own, may be written
    through by what follows. *)
Lemma keeps_bind_fresh {B} (m : M loc) (k : loc -> M B) :
  keeps m -> returns_fresh m ->
  (forall l w0 w,
      heap w0 !! l = None ->
      (forall base sel, heap w !! l = Some (NDView base sel) -> heap w0 !! base = None) ->
      untouched w0 w -> untouched w0 (k l w).2) ->
  keeps (m ≫= k).
Proof.
  intros Hm Hfresh Hk w.
  pose proof (Hm w) as Hw. pose proof (Hfresh w) as Hf.
  unfold mbind, M_bind, bind.
  destruct (m w) as [[l | e] w1]; simpl in *; [| exact Hw].
  destruct (Hf l eq_refl) as [Hl Hview].
  now apply Hk.
Qed.

Lemma keeps_distance_body env pair :
  helpers_build_new_arrays env -> keeps (distance_body env pair).
Proof.
  intros [Hlaw Hfilter]. destruct pair as [matrix name].
  unfold distance_body. cbv zeta.
  apply keeps_bind_fresh.
  - unfold call_distance_law.
    destruct (utils_distance_law env) as [distance_law |]; [| apply keeps_raise].
    now apply (Hlaw distance_law).
  - unfold call_distance_law.
    destruct (utils_distance_law env) as [distance_law |].
    + now apply (Hlaw distance_law).
    + intros w l H. discriminate H.
  - intros dist w0 w Hdist Hview H.
    unfold mbind at 1, M_bind at 1, bind at 1.
    pose proof (array_at_reads dist w) as Hread.
    destruct (array_at dist w) as [[d | e] w1]; simpl in Hread; subst w1;
      [| exact H].
    unfold mbind at 1, M_bind at 1, bind at 1.
    pose proof (zero_nans_fresh w0 w dist Hdist Hview H) as Hzero.
    destruct (zero_nans dist w) as [[[] | e] w2]; simpl in Hzero; [| exact Hzero].
    eapply untouched_trans; [exact Hzero |].
    assert (Hrest : forall (rest : M unit), keeps rest -> untouched w2 (rest w2).2)
      by (intros rest Hr; apply Hr).
    apply Hrest.
    apply keeps_bind.
    + unfold call_savgol_filter.
      destruct (savgol_filter env) as [f |]; [| apply keeps_raise].
      now apply (Hfilter f).
    + intros y_savgol.
      keeps_all;
        first [apply keeps_array_at | apply keeps_plot_xy
              | apply keeps_Path_of | apply keeps_savefig].
Qed.

(** In the module on its own the loop of [distance_plot] stops at once. *)
Lemma distance_plot_unbound env matrices labels w :
  utils_distance_law env = None ->
  (distance_plot env matrices labels w).2 = w.
Proof.
  intros Hutils. unfold distance_plot. cbv zeta.
  destruct (combine (matrix_list_of matrices)
              (labels_of (matrix_list_of matrices) labels)) as [| [matrix name] rest];
    [reflexivity |].
  simpl. erewrite bind_raised; [reflexivity |].
  unfold distance_body. apply bind_raised.
  unfold call_distance_law. now rewrite Hutils.
Qed.

(** C8 (amended): [pattern_plot], [pileup_plot] and [plot_whole_matrix]
    change no object that exists when they are called, so the matrix, the
    patterns and the pileup hold after the call what they held before;
    [plot_whole_matrix] leaves the table it was given as it is and puts the
    filtered rows into a new table.  [distance_plot] overwrites the NaNs of
    the array its distance law returns: it changes no object that exists
    when it is called in the module on its own, where the loop stops at
    once, and with helpers that leave what they find alone and a distance
    law whose result shares no memory with an earlier object. *)
Theorem inputs_not_mutated env :
  (forall contact_map patterns output name,
      keeps (pattern_plot env contact_map patterns output name))
  /\ (forall pileup_pattern name output,
         keeps (pileup_plot env pileup_pattern name output))
  /\ (forall mat patterns out region region2,
         keeps (plot_whole_matrix env mat patterns out region region2))
  /\ (utils_distance_law env = None \/ helpers_build_new_arrays env ->
      forall matrices labels, keeps (distance_plot env matrices labels))
  /\ (forall mat patterns out region region2 w m csr g rows,
         import_datashader env = Returned m ->
         heap w !! mat = Some (SparseMatrix csr g) ->
         heap w !! patterns = Some (DataFrame rows) ->
         (forall fname, out = Some fname -> writable env fname = true) ->
         let w' := (plot_whole_matrix env mat patterns out region region2 w).2 in
         let '(s1, e1, s2, e2) := ranges_for g region region2 in
         heap w' !! patterns = Some (DataFrame rows)
         /\ exists pat,
             heap w !! pat = None
             /\ heap w' !! pat
                = Some (DataFrame (List.filter (in_region s1 e1 s2 e2) rows))).
Proof.
  split; [| split; [| split; [| split]]].
  - apply keeps_pattern_plot.
  - apply keeps_pileup_plot.
  - apply keeps_plot_whole_matrix.
  - intros [Hunbound | Hhelpers] matrices labels.
    + intros w. rewrite (distance_plot_unbound env matrices labels w Hunbound).
      apply untouched_refl.
    + unfold distance_plot. cbv zeta.
      apply keeps_for_each. intros pair. now apply keeps_distance_body.
  - intros mat patterns out region region2 w m csr g rows Himp Hmat Hpat Hout.
    cbv zeta.
    pose proof (plot_whole_matrix_run env mat patterns out region region2
                  w m csr g rows Himp Hmat Hpat Hout) as Hrun.
    destruct (ranges_for g region region2) as [[[s1 e1] s2] e2].
    rewrite Hrun. simpl. split.
    + now apply lookup_app_l_Some.
    + exists (S (length (heap w))). split.
      * apply lookup_ge_None. lia.
      * unfold new_objects.
        rewrite lookup_app_r by lia.
        replace (S (length (heap w)) - length (heap w))%nat with 1%nat by lia.
        reflexivity.
Qed.

Lemma sample_helpers_build_new_arrays : helpers_build_new_arrays sample_env_injected.
Proof.
  split.
  - intros distance_law H matrix. inversion H; subst distance_law. split.
    + unfold sample_distance_law. keeps_all.
    + intros w l. unfold sample_distance_law, deref, mbind, M_bind, bind.
      destruct (heap w !! matrix) as [[| csr g | [v | g] | | | |] |]; simpl;
        try discriminate;
        intros H'; inversion H'; subst l;
        (split; [apply lookup_ge_None; lia |]);
        intros base sel Hv; rewrite lookup_snoc in Hv; discriminate Hv.
  - intros f H y window_length polyorder. inversion H; subst f.
    unfold sample_savgol_filter. keeps_all.
Qed.

(** A matrix with NaNs and a contact map with its patterns come out of
    the calls as they went in. *)
Lemma inputs_not_mutated_witness :
  untouched sample_world
    (distance_plot sample_env_injected (array_list [5; 1]%nat)
       (label_list [PyStr "a"; PyStr "b"]) sample_world).2
  /\ untouched sample_world
       (pattern_plot sample_env 6 2 None PyNone sample_world).2.
Proof.
  split.
  - apply (proj1 (proj2 (proj2 (proj2 (inputs_not_mutated sample_env_injected))))
             (or_intror sample_helpers_build_new_arrays)).
  - apply (proj1 (inputs_not_mutated sample_env)).
Defined.

(** C8, as stated, fails for [distance_plot]: with a distance law that hands
    back the matrix it was given, or a view of its first row, the call
    returns and the matrix passed in has lost NaNs. *)
Lemma distance_plot_overwrites_input :
  let r := distance_plot sample_env_aliasing (one_array 5) (one_label "a")
             sample_world in
  let r' := distance_plot sample_env_view (one_array 5) (one_label "a")
              sample_world in
  heap sample_world !! 5%nat = Some (NDArray (Array2 [[nan; 1]; [1; nan]]%float))
  /\ r.1 = Returned tt
  /\ heap r.2 !! 5%nat = Some (NDArray (Array2 [[0; 1]; [1; 0]]%float))
  /\ r'.1 = Returned tt
  /\ heap r'.2 !! 5%nat = Some (NDArray (Array2 [[0; 1]; [1; nan]]%float))
  /\ ~ keeps (distance_plot sample_env_aliasing (one_array 5) (one_label "a"))
  /\ ~ keeps (distance_plot sample_env_view (one_array 5) (one_label "a")).
Proof.
  cbv zeta.
  repeat split; try (vm_compute; reflexivity).
  - intros Hkeeps.
    specialize (Hkeeps sample_world 5%nat _ eq_refl).
    vm_compute in Hkeeps. inversion Hkeeps.
  - intros Hkeeps.
    specialize (Hkeeps sample_world 5%nat _ eq_refl).
    vm_compute in Hkeeps. inversion Hkeeps.
Qed.

(** * Further properties *)

(** ** Returning from a sequence *)

Lemma bind_inv {A B} (m : M A) (k : A -> M B) w b w' :
  (m ≫= k) w = (Returned b, w') ->
  exists a w1, m w = (Returned a, w1) /\ k a w1 = (Returned b, w').
Proof.
  unfold mbind, M_bind, bind.
  destruct (m w) as [[a | e] w1]; [eauto | discriminate].
Qed.

Lemma add_calls_nil w : add_calls w [] = w.
Proof. destruct w. unfold add_calls. simpl. now rewrite app_nil_r. Qed.

Lemma add_calls_app w cs cs' :
  add_calls (add_calls w cs) cs' = add_calls w (cs ++ cs').
Proof. unfold add_calls. simpl. now rewrite app_assoc. Qed.

(** ** [pattern_plot]: the markers of a well-formed dict *)

Section pattern_loop.

Variable name : pyval.

(** The two loop bodies differ in the call they make only. *)
Lemma border_body_ok border w :
  record_ok name border = true ->
  border_body name border w
  = (Returned tt, add_calls w (marker_calls plt.Plot_marker name border)).
Proof.
  unfold record_ok, border_body, marker_calls, index, unpack4, py_ne.
  destruct border as [| f [| pos1 rest]]; simpl; [discriminate | |].
  - rewrite orb_false_r. intros H.
    erewrite bind_returned by reflexivity. rewrite H.
    now rewrite add_calls_nil.
  - intros H. erewrite bind_returned by reflexivity.
    destruct (py_eq f name); simpl in *.
    + erewrite bind_returned by reflexivity.
      destruct (py_eq pos1 (PyStr "NA")); simpl in *.
      * destruct rest as [| ? [| ? [| ? ?]]]; now rewrite add_calls_nil.
      * destruct rest as [| pos2 [| sc [| ? ?]]]; try discriminate.
        reflexivity.
    + destruct rest as [| ? [| ? [| ? ?]]]; now rewrite add_calls_nil.
Qed.

Lemma loop_body_ok loop w :
  record_ok name loop = true ->
  loop_body name loop w
  = (Returned tt, add_calls w (marker_calls plt.Scatter_marker name loop)).
Proof.
  unfold record_ok, loop_body, marker_calls, index, unpack4, py_ne.
  destruct loop as [| f [| pos1 rest]]; simpl; [discriminate | |].
  - rewrite orb_false_r. intros H.
    erewrite bind_returned by reflexivity. rewrite H.
    now rewrite add_calls_nil.
  - intros H. erewrite bind_returned by reflexivity.
    destruct (py_eq f name); simpl in *.
    + erewrite bind_returned by reflexivity.
      destruct (py_eq pos1 (PyStr "NA")); simpl in *.
      * destruct rest as [| ? [| ? [| ? ?]]]; now rewrite add_calls_nil.
      * destruct rest as [| pos2 [| sc [| ? ?]]]; try discriminate.
        reflexivity.
    + destruct rest as [| ? [| ? [| ? ?]]]; now rewrite add_calls_nil.
Qed.

Lemma border_body_stops border w :
  record_ok name border = false ->
  exists e, border_body name border w = (Raised e, w).
Proof.
  unfold record_ok, border_body, index, unpack4, py_ne.
  destruct border as [| f [| pos1 rest]]; simpl; [eauto | |].
  - rewrite orb_false_r. intros H.
    erewrite bind_returned by reflexivity. rewrite H. simpl. eauto.
  - intros H. apply orb_false_iff in H. destruct H as [Hf H].
    apply orb_false_iff in H. destruct H as [Hp Hlen].
    erewrite bind_returned by reflexivity. rewrite Hf.
    erewrite bind_returned by reflexivity.
    apply negb_false_iff in Hp. rewrite Hp.
    destruct rest as [| pos2 [| sc [| ? ?]]]; simpl in *;
      try discriminate; eauto.
Qed.

Lemma loop_body_stops loop w :
  record_ok name loop = false ->
  exists e, loop_body name loop w = (Raised e, w).
Proof.
  unfold record_ok, loop_body, index, unpack4, py_ne.
  destruct loop as [| f [| pos1 rest]]; simpl; [eauto | |].
  - rewrite orb_false_r. intros H.
    erewrite bind_returned by reflexivity. rewrite H. simpl. eauto.
  - intros H. apply orb_false_iff in H. destruct H as [Hf H].
    apply orb_false_iff in H. destruct H as [Hp Hlen].
    erewrite bind_returned by reflexivity. rewrite Hf.
    erewrite bind_returned by reflexivity.
    apply negb_false_iff in Hp. rewrite Hp.
    destruct rest as [| pos2 [| sc [| ? ?]]]; simpl in *;
      try discriminate; eauto.
Qed.

(** A loop whose body either appends calls or stops. *)
Lemma for_each_calls {A} (ok : A -> bool) (out : A -> list plt.call)
    (body : A -> M unit) :
  (forall x w, ok x = true -> body x w = (Returned tt, add_calls w (out x))) ->
  (forall x w, ok x = false -> exists e w', body x w = (Raised e, w')) ->
  forall xs w,
    (forallb ok xs = true ->
     for_each xs body w = (Returned tt, add_calls w (flat_map out xs)))
    /\ (forallb ok xs = false -> exists e w', for_each xs body w = (Raised e, w')).
Proof.
  intros Hok Hstop. induction xs as [| x rest IH]; intros w; simpl.
  - split; [intros _; now rewrite add_calls_nil | discriminate].
  - destruct (ok x) eqn:Ex; simpl.
    + rewrite (bind_returned _ _ _ _ _ (Hok x w Ex)).
      destruct (IH (add_calls w (out x))) as [IH1 IH2]. split.
      * intros H. rewrite (IH1 H). now rewrite add_calls_app.
      * exact IH2.
    + split; [discriminate |]. intros _.
      destruct (Hstop x w Ex) as (e & w' & E).
      exists e, w'. now apply bind_raised.
Qed.

Lemma patterns_body_calls item w :
  (item_ok name item = true ->
   patterns_body name item w = (Returned tt, add_calls w (item_markers name item)))
  /\ (item_ok name item = false ->
      exists e w', patterns_body name item w = (Raised e, w')).
Proof.
  destruct item as [pattern_type all_patterns].
  unfold item_ok, item_markers, patterns_body. simpl.
  destruct (py_eq pattern_type (PyStr "borders")); simpl.
  - apply for_each_calls.
    + intros. now apply border_body_ok.
    + intros x w' H. destruct (border_body_stops x w' H). eauto.
  - destruct (py_eq pattern_type (PyStr "loops")); simpl.
    + apply for_each_calls.
      * intros. now apply loop_body_ok.
      * intros x w' H. destruct (loop_body_stops x w' H). eauto.
    + split; [intros _; now rewrite add_calls_nil | discriminate].
Qed.

Lemma patterns_loop_calls its w :
  (forallb (item_ok name) its = true ->
   for_each its (patterns_body name) w
   = (Returned tt, add_calls w (flat_map (item_markers name) its)))
  /\ (forallb (item_ok name) its = false ->
      exists e w', for_each its (patterns_body name) w = (Raised e, w')).
Proof.
  apply for_each_calls.
  - intros x w' H. now apply patterns_body_calls.
  - intros x w' H. now apply patterns_body_calls.
Qed.

End pattern_loop.

Lemma mat_todense_run w contact_map mat csr g :
  heap w !! contact_map = Some (ContactMap mat) ->
  heap w !! mat = Some (SparseArray csr g) ->
  mat_todense contact_map w = (Returned g, w).
Proof.
  intros Hcm Hmat. unfold mat_todense.
  rewrite (bind_returned _ _ _ _ _ (deref_run _ _ _ Hcm)).
  rewrite (bind_returned _ _ _ _ _ (deref_run _ _ _ Hmat)). reflexivity.
Qed.

Lemma mat_todense_inv w contact_map g w' :
  mat_todense contact_map w = (Returned g, w') ->
  exists mat csr,
    heap w !! contact_map = Some (ContactMap mat)
    /\ heap w !! mat = Some (SparseArray csr g).
Proof.
  unfold mat_todense, deref, mbind, M_bind, bind, ret, raise.
  destruct (heap w !! contact_map) as [[mat | | | | | |] |] eqn:Hcm;
    try discriminate.
  destruct (heap w !! mat) as [[| | | | | csr g' |] |] eqn:Hmat; try discriminate.
  intros H. inversion H; subst. eauto.
Qed.

Lemma items_run w patterns :
  ((exists its, heap w !! patterns = Some (Dict its))
   \/ (exists rows, heap w !! patterns = Some (DataFrame rows))) ->
  items patterns w = (Returned (patterns_at w patterns), w).
Proof.
  unfold items, patterns_at.
  intros [[its H] | [rows H]];
    rewrite (bind_returned _ _ _ _ _ (deref_run _ _ _ H)), H; reflexivity.
Qed.

Lemma items_inv w patterns its w' :
  items patterns w = (Returned its, w') ->
  (exists its, heap w !! patterns = Some (Dict its))
  \/ (exists rows, heap w !! patterns = Some (DataFrame rows)).
Proof.
  unfold items, deref, mbind, M_bind, bind, ret, raise.
  destruct (heap w !! patterns) as [[] |]; try discriminate; eauto.
Qed.

Lemma emit_run c w : emit c w = (Returned tt, add_calls w [c]).
Proof. reflexivity. Qed.

Lemma pattern_plot_run env contact_map patterns output name w g next :
  pattern_plot_ok env contact_map patterns output name w g next ->
  pattern_plot env contact_map patterns output name w
  = (Returned tt,
     add_calls w (pattern_plot_calls env output name g next
                    (patterns_at w patterns))).
Proof.
  intros ((mat & csr & Hcm & Hmat) & Hpat & Hits & Hnext & Hwr).
  unfold pattern_plot. cbv zeta.
  rewrite (bind_returned _ _ _ _ _ (mat_todense_run _ _ _ _ _ Hcm Hmat)).
  rewrite (bind_returned _ _ _ _ _ (emit_run _ _)).
  rewrite (bind_returned _ _ _ _ _ (emit_run _ _)).
  rewrite (bind_returned _ _ _ _ _ (emit_run _ _)).
  rewrite !add_calls_app. simpl app.
  erewrite bind_returned by (apply items_run; exact Hpat).
  change (patterns_at (add_calls w _) patterns) with (patterns_at w patterns).
  erewrite bind_returned
    by (apply (proj1 (patterns_loop_calls _ _ _)); exact Hits).
  rewrite Hnext. simpl lift. erewrite bind_returned by reflexivity.
  unfold savefig. fold (emplacement_of env output next). rewrite Hwr.
  rewrite (bind_returned _ _ _ _ _ (emit_run _ _)).
  rewrite emit_run, !add_calls_app.
  reflexivity.
Qed.



Lemma pattern_plot_inv env contact_map patterns output name w w' :
  pattern_plot env contact_map patterns output name w = (Returned tt, w') ->
  exists g next, pattern_plot_ok env contact_map patterns output name w g next.
Proof.
  unfold pattern_plot. cbv zeta. intros H.
  apply bind_inv in H. destruct H as (g & w0 & Hdense & H).
  pose proof (mat_todense_reads contact_map w) as Hw0.
  rewrite Hdense in Hw0. simpl in Hw0. subst w0.
  rewrite (bind_returned _ _ _ _ _ (emit_run _ _)) in H.
  rewrite (bind_returned _ _ _ _ _ (emit_run _ _)) in H.
  rewrite (bind_returned _ _ _ _ _ (emit_run _ _)) in H.
  apply bind_inv in H. destruct H as (its & w1 & Hitems & H).
  destruct (items_reads patterns
              (add_calls (add_calls (add_calls w
                 [plt.Imshow g plt.Power015 "afmhot_r"])
                 [plt.Title (default_name name)]) [plt.Colorbar]))
    as [Hw1 Hits].
  rewrite Hitems in Hw1, Hits. simpl in Hw1. subst w1.
  specialize (Hits its eq_refl).
  change (patterns_at (add_calls _ _) patterns) with (patterns_at w patterns) in Hits.
  subst its.
  apply bind_inv in H. destruct H as ([] & w2 & Hloop & H).
  apply bind_inv in H. destruct H as (next & w3 & Hnext & H).
  apply bind_inv in H. destruct H as ([] & w4 & Hsave & _).
  exists g, next. split; [now apply (mat_todense_inv w contact_map g w) |].
  split; [now apply items_inv in Hitems |].
  split; [| split].
  - destruct (forallb (item_ok (default_name name)) (patterns_at w patterns)) eqn:E;
      [reflexivity |].
    match type of Hloop with
    | for_each _ _ ?w1 = _ =>
        destruct (proj2 (patterns_loop_calls (default_name name)
                           (patterns_at w patterns) w1) E)
          as (e & w'' & Hstop)
    end.
    rewrite Hstop in Hloop. discriminate.
  - destruct (py_add (default_name name) (PyInt 1)); simpl in Hnext;
      inversion Hnext; reflexivity.
  - destruct (py_add (default_name name) (PyInt 1)) as [n |]; simpl in Hnext;
      inversion Hnext; subst.
    unfold savefig in Hsave. fold (emplacement_of env output next) in Hsave.
    destruct (writable env (emplacement_of env output next)); [reflexivity |].
    discriminate.
Qed.

(** [pattern_plot] returns only if the loop gets through every record under
    ["borders"] and ["loops"] (each has a first field, each record of the
    frame a second one, and each record of the frame with a position four
    fields), [1] can be added to [name], and the path can be written. *)
Theorem pattern_plot_returns_only_if env contact_map patterns output name w w' :
  pattern_plot env contact_map patterns output name w = (Returned tt, w') ->
  forallb (item_ok (default_name name)) (patterns_at w patterns) = true
  /\ exists next,
      py_add (default_name name) (PyInt 1) = Returned next
      /\ writable env (emplacement_of env output next) = true.
Proof.
  intros H. apply pattern_plot_inv in H.
  destruct H as (g & next & _ & _ & Hits & Hnext & Hwr). eauto.
Qed.

Lemma pattern_plot_returns_only_if_witness :
  forallb (item_ok (default_name PyNone)) (patterns_at sample_world 2) = true
  /\ exists next,
      py_add (default_name PyNone) (PyInt 1) = Returned next
      /\ writable sample_env (emplacement_of sample_env None next) = true.
Proof.
  eapply (pattern_plot_returns_only_if sample_env 6%nat 2%nat None PyNone
            sample_world).
  vm_compute. reflexivity.
Defined.

(** A record of the frame that has a position and three fields stops the
    loop, and with it the call, before anything is saved. *)
Example short_record_stops_pattern_plot :
  let w := {| heap := [ContactMap 1; SparseArray true sample_matrix;
                       Dict [(PyStr "loops", [[PyInt 0; PyInt 1; PyInt 2]])]];
              calls := []; stdout := []; ds := None |} in
  exists what, (pattern_plot sample_env 0 2 None PyNone w).1 = Raised (ValueError what).
Proof. eexists. vm_compute. reflexivity. Qed.

(** ** [pattern_plot]: what a failure leaves *)

Lemma drawing_keeps_files blocking cs cv :
  Forall is_drawing cs ->
  plt.written (fold_left (plt.step blocking) cs cv) = plt.written cv.
Proof.
  intros H. apply written_draw.
  eapply Forall_impl; [exact H |]. intros []; simpl; tauto.
Qed.

Lemma drawing_opens_figure blocking cs cv :
  Forall is_drawing cs ->
  cs <> [] \/ plt.open_figures cv <> [] ->
  plt.open_figures (fold_left (plt.step blocking) cs cv) <> [].
Proof.
  intros H. revert cv. induction H as [| c cs Hc _ IH]; intros cv Hne; simpl.
  - destruct Hne; [congruence | assumption].
  - apply IH. right.
    destruct c; simpl in *; try tauto;
      unfold plt.draw; destruct (plt.open_figures cv); discriminate.
Qed.

Lemma marker_of_drawing name its c : marker_of name its c -> is_drawing c.
Proof. intros []; exact I. Qed.

(** When [pattern_plot] raises, it has made drawing calls only. *)
Lemma pattern_plot_raised env contact_map patterns output name w e :
  (pattern_plot env contact_map patterns output name w).1 = Raised e ->
  exists cs,
    calls (pattern_plot env contact_map patterns output name w).2 = calls w ++ cs
    /\ Forall is_drawing cs.
Proof.
  intros Hraised.
  destruct (pattern_plot_traced env contact_map patterns output name w)
    as (_ & _ & _ & pre & markers & post & Hc & Hpre & Hm & Hpost).
  rewrite Hraised in Hpost. subst post. rewrite app_nil_r in Hc.
  exists (pre ++ markers). split; [exact Hc |].
  apply Forall_app. split.
  - destruct Hpre as [-> | [dense ->]]; repeat constructor.
  - eapply Forall_impl; [exact Hm |]. apply marker_of_drawing.
Qed.

(** A call of [pattern_plot] that raises has written no file and closed no
    figure: what it drew before is on a figure that stays open. *)
Theorem pattern_plot_failure_leaves_figure env contact_map patterns output name w e :
  let w' := (pattern_plot env contact_map patterns output name w).2 in
  (pattern_plot env contact_map patterns output name w).1 = Raised e ->
  forall blocking,
    plt.written (plt.render blocking (calls w'))
    = plt.written (plt.render blocking (calls w))
    /\ (calls w' <> calls w ->
        plt.open_figures (plt.render blocking (calls w')) <> []).
Proof.
  cbv zeta. intros Hraised blocking.
  destruct (pattern_plot_raised _ _ _ _ _ _ _ Hraised) as (cs & Hc & Hdraw).
  rewrite Hc. unfold plt.render. rewrite fold_left_app. split.
  - now apply drawing_keeps_files.
  - intros Hne. apply drawing_opens_figure; [exact Hdraw |].
    left. intros ->. apply Hne. now rewrite app_nil_r.
Qed.

Lemma pattern_plot_failure_leaves_figure_witness :
  let w' := (pattern_plot sample_env 6 2 None (PyStr "chr1") sample_world).2 in
  plt.written (plt.render false (calls w'))
  = plt.written (plt.render false (calls sample_world))
  /\ (calls w' <> calls sample_world ->
      plt.open_figures (plt.render false (calls w')) <> []).
Proof.
  apply (pattern_plot_failure_leaves_figure sample_env 6%nat 2%nat None
           (PyStr "chr1") sample_world
           (TypeError "unsupported operand type(s) for +")).
  vm_compute. reflexivity.
Defined.

(** With a string for [name] the call never returns, whatever else it is
    given: [name + 1] raises after the markers were drawn, and no file is
    written. *)
Theorem pattern_plot_string_name_fails env contact_map patterns output s w :
  let r := pattern_plot env contact_map patterns output (PyStr s) w in
  (exists e, r.1 = Raised e)
  /\ forall blocking,
      plt.written (plt.render blocking (calls r.2))
      = plt.written (plt.render blocking (calls w)).
Proof.
  cbv zeta.
  assert (Hraised : exists e,
             (pattern_plot env contact_map patterns output (PyStr s) w).1 = Raised e).
  { destruct (pattern_plot_traced env contact_map patterns output (PyStr s) w)
      as (_ & _ & _ & pre & markers & post & _ & _ & _ & Hpost).
    destruct (pattern_plot env contact_map patterns output (PyStr s) w).1
      as [[] | e]; [| eauto].
    destruct Hpost as (next & Hnext & _). discriminate Hnext. }
  split; [exact Hraised |].
  destruct Hraised as [e He]. intros blocking.
  destruct (pattern_plot_raised _ _ _ _ _ _ _ He) as (cs & Hc & Hdraw).
  rewrite Hc. unfold plt.render. rewrite fold_left_app.
  now apply drawing_keeps_files.
Qed.

(** ** What the files hold *)

Lemma drawing_current blocking cs cv :
  Forall is_drawing cs ->
  current_figure (fold_left (plt.step blocking) cs cv) = current_figure cv ++ cs
  /\ tl (plt.open_figures (fold_left (plt.step blocking) cs cv))
     = tl (plt.open_figures cv).
Proof.
  intros H. revert cv. induction H as [| c cs Hc _ IH]; intros cv; simpl.
  - now rewrite app_nil_r.
  - destruct (IH (plt.step blocking cv c)) as [IH1 IH2]. rewrite IH1, IH2.
    unfold current_figure.
    destruct c; simpl in Hc; try contradiction; simpl; unfold plt.draw;
      destruct (plt.open_figures cv); simpl; rewrite <- ?app_assoc; auto.
Qed.

Lemma savefig_current blocking cv fname format :
  plt.written (plt.step blocking cv (plt.Savefig fname format))
  = plt.written cv ++ [(fname, current_figure cv)].
Proof.
  unfold current_figure. simpl. now destruct (plt.open_figures cv).
Qed.

(** Drawing, then saving, then closing: the file holds the current figure
    with the drawing added. *)
Lemma written_after_save_close blocking hist cs fname format :
  Forall is_drawing cs ->
  plt.written (plt.render blocking (hist ++ cs ++ [plt.Savefig fname format; plt.Close_all]))
  = plt.written (plt.render blocking hist)
    ++ [(fname, current_figure (plt.render blocking hist) ++ cs)].
Proof.
  intros Hd. unfold plt.render.
  rewrite app_assoc, fold_left_app.
  change (fold_left (plt.step blocking) [plt.Savefig fname format; plt.Close_all] ?cv)
    with (plt.step blocking (plt.step blocking cv (plt.Savefig fname format))
            plt.Close_all).
  change (plt.written (plt.step blocking ?cv plt.Close_all)) with (plt.written cv).
  rewrite savefig_current, fold_left_app.
  destruct (drawing_current blocking cs
              (fold_left (plt.step blocking) hist plt.blank) Hd) as [Hcur _].
  rewrite Hcur, (drawing_keeps_files _ _ _ Hd). reflexivity.
Qed.

Lemma item_markers_drawing name its :
  Forall is_drawing (flat_map (item_markers name) its).
Proof.
  assert (Hm : forall mk r,
             (forall x y, is_drawing (mk x y)) ->
             Forall is_drawing (marker_calls mk name r)).
  { intros mk r Hmk. unfold marker_calls.
    destruct r as [| f [| pos1 [| pos2 [| sc [| ? ?]]]]]; try constructor.
    destruct (py_eq f name && py_ne pos1 (PyStr "NA")); repeat constructor.
    apply Hmk. }
  assert (Hf : forall mk rs,
             (forall x y, is_drawing (mk x y)) ->
             Forall is_drawing (flat_map (marker_calls mk name) rs)).
  { intros mk rs Hmk. induction rs; simpl; [constructor |].
    apply Forall_app. split; [now apply Hm | assumption]. }
  induction its as [| item its IH]; simpl; [constructor |].
  apply Forall_app. split; [| exact IH].
  unfold item_markers.
  destruct (py_eq item.1 (PyStr "borders")); [apply Hf; intros; exact I |].
  destruct (py_eq item.1 (PyStr "loops")); [apply Hf; intros; exact I |].
  constructor.
Qed.

(** The file [pattern_plot] writes holds the figure that was current when
    it was called, followed by its own drawing; after a call that closed
    the figures it holds its own drawing only. *)
Theorem pattern_plot_file_content env contact_map patterns output name w g next :
  pattern_plot_ok env contact_map patterns output name w g next ->
  markers_have_coordinates (default_name name) (patterns_at w patterns) ->
  let w' := (pattern_plot env contact_map patterns output name w).2 in
  let drawing :=
    [plt.Imshow g plt.Power015 "afmhot_r"; plt.Title (default_name name);
     plt.Colorbar]
    ++ flat_map (item_markers (default_name name)) (patterns_at w patterns) in
  forall blocking,
    plt.written (plt.render blocking (calls w'))
    = plt.written (plt.render blocking (calls w))
      ++ [(emplacement_of env output next,
           current_figure (plt.render blocking (calls w)) ++ drawing)]
    /\ (closed w ->
        plt.written (plt.render blocking (calls w'))
        = plt.written (plt.render blocking (calls w))
          ++ [(emplacement_of env output next, drawing)]).
Proof.
  intros Hok _. cbv zeta. rewrite (pattern_plot_run _ _ _ _ _ _ _ _ Hok).
  intros blocking. simpl.
  assert (Hwritten :
    plt.written (plt.render blocking
      (calls w ++ pattern_plot_calls env output name g next (patterns_at w patterns)))
    = plt.written (plt.render blocking (calls w))
      ++ [(emplacement_of env output next,
           current_figure (plt.render blocking (calls w))
           ++ [plt.Imshow g plt.Power015 "afmhot_r"; plt.Title (default_name name);
               plt.Colorbar]
           ++ flat_map (item_markers (default_name name)) (patterns_at w patterns))]).
  { unfold pattern_plot_calls.
    rewrite (app_assoc [_; _; _]).
    apply written_after_save_close.
    apply Forall_app. split; [repeat constructor | apply item_markers_drawing]. }
  split; [exact Hwritten |].
  intros Hclosed. rewrite Hwritten.
  unfold current_figure. now rewrite (closed_no_open_figure _ _ Hclosed).
Qed.

Lemma pattern_plot_file_content_witness :
  let w' := (pattern_plot sample_env 6 2 None PyNone sample_world_drawn).2 in
  plt.written (plt.render false (calls w'))
  = [("1.2.pdf",
      [plt.Title (PyStr "earlier");
       plt.Imshow sample_matrix plt.Power015 "afmhot_r"; plt.Title (PyInt 0);
       plt.Colorbar; plt.Plot_marker (PyInt 1) (PyInt 1);
       plt.Scatter_marker (PyInt 0) (PyInt 2)])].
Proof.
  cbv zeta.
  refine (proj1 (pattern_plot_file_content sample_env 6%nat 2%nat None PyNone
                   sample_world_drawn sample_matrix (PyInt 1) _ _ false)).
  - repeat split.
    + exists 7%nat, true. split; reflexivity.
    + left. eexists. reflexivity.
  - repeat constructor.
Defined.

(** ** C7: the file of [pattern_plot] *)

(** C7: when [pattern_plot] returns, it has written one file, named
    [str(name + 1)] followed by [".2.pdf"] and joined to [output]; for an
    int [name] that is the file [<name + 1>.2.pdf] in the directory
    [output].  Without a name the frame is [0]: on a contact map that holds
    a sparse array, with patterns the loop gets through and a file it can
    write, the call with the frame [n], or with no name and [n = 0],
    returns and has written [<n + 1>.2.pdf] in [output]. *)
Theorem pattern_plot_file env contact_map patterns output name w :
  (forall w',
      pattern_plot env contact_map patterns output name w = (Returned tt, w') ->
      exists next,
        py_add (default_name name) (PyInt 1) = Returned next
        /\ (forall blocking, exists figure,
               plt.written (plt.render blocking (calls w'))
               = plt.written (plt.render blocking (calls w))
                 ++ [(emplacement_of env output next, figure)])
        /\ (forall n, default_name name = PyInt n ->
               emplacement_of env output next
               = pathlib.fspath
                   (in_dir (output_dir output) (str_of_int (n + 1) ++ ".2.pdf")))
        /\ (name = PyNone ->
               emplacement_of env output next
               = pathlib.fspath (in_dir (output_dir output) "1.2.pdf")))
  /\ (forall n g mat csr,
        name = PyInt n \/ (name = PyNone /\ n = 0%Z) ->
        heap w !! contact_map = Some (ContactMap mat) ->
        heap w !! mat = Some (SparseArray csr g) ->
        ((exists its, heap w !! patterns = Some (Dict its))
         \/ (exists rows, heap w !! patterns = Some (DataFrame rows))) ->
        forallb (item_ok (PyInt n)) (patterns_at w patterns) = true ->
        markers_have_coordinates (PyInt n) (patterns_at w patterns) ->
        writable env
          (pathlib.fspath
             (in_dir (output_dir output) (str_of_int (n + 1) ++ ".2.pdf"))) = true ->
        exists w',
          pattern_plot env contact_map patterns output name w = (Returned tt, w')
          /\ forall blocking, exists figure,
               plt.written (plt.render blocking (calls w'))
               = plt.written (plt.render blocking (calls w))
                 ++ [(pathlib.fspath
                        (in_dir (output_dir output)
                           (str_of_int (n + 1) ++ ".2.pdf")),
                      figure)]).
Proof.
  assert (Hfile : forall n,
            emplacement_of env output (PyInt (n + 1))
            = pathlib.fspath
                (in_dir (output_dir output) (str_of_int (n + 1) ++ ".2.pdf"))).
  { intros n. unfold emplacement_of. simpl py_str.
    destruct (pdf_name_is_file (n + 1)) as (H1 & H2 & H3).
    now rewrite joinpath_file. }
  split.
  - intros w' Hrun.
    pose proof (pattern_plot_traced env contact_map patterns output name w) as Ht.
    rewrite Hrun in Ht.
    destruct Ht
      as (_ & _ & _ & pre & markers & post & Hc & Hpre & Hm & next & Hnext & ->).
    exists next. split; [exact Hnext |].
    assert (Hint : forall n, default_name name = PyInt n ->
              emplacement_of env output next
              = pathlib.fspath
                  (in_dir (output_dir output) (str_of_int (n + 1) ++ ".2.pdf"))).
    { intros n Hn. rewrite Hn in Hnext. simpl in Hnext. inversion Hnext; subst next.
      apply Hfile. }
    split; [| split; [exact Hint |]].
    + intros blocking. simpl in Hc. rewrite Hc.
      unfold plt.render.
      rewrite !app_assoc, fold_left_app. simpl.
      rewrite <- !app_assoc, fold_left_app.
      rewrite written_draw.
      * eexists. reflexivity.
      * apply Forall_app. split.
        -- destruct Hpre as [-> | [dense ->]]; repeat constructor; simpl; tauto.
        -- eapply Forall_impl; [exact Hm |]. apply marker_of_draws.
    + intros ->. apply (Hint 0%Z). reflexivity.
  - intros n g mat csr Hname Hcm Hmat Hpat Hits _ Hwr.
    assert (Hdefault : default_name name = PyInt n).
    { destruct Hname as [-> | [-> ->]]; reflexivity. }
    assert (Hok : pattern_plot_ok env contact_map patterns output name w g
                    (PyInt (n + 1))).
    { split; [eauto |]. split; [exact Hpat |].
      rewrite Hdefault. split; [exact Hits |].
      split; [reflexivity | now rewrite Hfile]. }
    eexists. split; [apply (pattern_plot_run _ _ _ _ _ _ _ _ Hok) |].
    intros blocking. simpl. unfold pattern_plot_calls.
    rewrite (app_assoc [_; _; _]), Hfile.
    rewrite written_after_save_close.
    + eexists. reflexivity.
    + apply Forall_app. split; [repeat constructor | apply item_markers_drawing].
Qed.

(** A call without a name writes [1.2.pdf], a call for the frame [41]
    writes [42.2.pdf]. *)
Lemma pattern_plot_file_witness :
  (exists w',
      pattern_plot sample_env 6 2 (Some "out/plots") PyNone sample_world
      = (Returned tt, w')
      /\ forall blocking, exists figure,
           plt.written (plt.render blocking (calls w'))
           = plt.written (plt.render blocking (calls sample_world))
             ++ [("out/plots/1.2.pdf", figure)])
  /\ (let w' := (pattern_plot sample_env 6 2 (Some "out/plots") (PyInt 41)
                   sample_world).2 in
      emplacement_of sample_env (Some "out/plots") (PyInt 42) = "out/plots/42.2.pdf"
      /\ exists next,
          py_add (default_name (PyInt 41)) (PyInt 1) = Returned next
          /\ (forall blocking, exists figure,
                 plt.written (plt.render blocking (calls w'))
                 = plt.written (plt.render blocking (calls sample_world))
                   ++ [(emplacement_of sample_env (Some "out/plots") next, figure)])
          /\ (forall n, default_name (PyInt 41) = PyInt n ->
                 emplacement_of sample_env (Some "out/plots") next
                 = pathlib.fspath
                     (in_dir (output_dir (Some "out/plots"))
                        (str_of_int (n + 1) ++ ".2.pdf")))
          /\ (PyInt 41 = PyNone ->
                 emplacement_of sample_env (Some "out/plots") next
                 = pathlib.fspath (in_dir (output_dir (Some "out/plots")) "1.2.pdf"))).
Proof.
  split.
  - apply (proj2 (pattern_plot_file sample_env 6%nat 2%nat (Some "out/plots") PyNone
                    sample_world) 0%Z sample_matrix 7%nat true).
    + right. split; reflexivity.
    + reflexivity.
    + reflexivity.
    + left. eexists. reflexivity.
    + reflexivity.
    + repeat constructor.
    + reflexivity.
  - cbv zeta. split; [vm_compute; reflexivity |].
    apply (proj1 (pattern_plot_file sample_env 6%nat 2%nat (Some "out/plots")
                    (PyInt 41) sample_world)).
    vm_compute. reflexivity.
Defined.

(** ** [pileup_plot] *)

Lemma image_data_run w pileup_pattern g :
  heap w !! pileup_pattern = Some (NDArray (Array2 g)) ->
  image_data pileup_pattern w = (Returned g, w).
Proof.
  intros Hg. unfold image_data.
  rewrite (bind_returned _ _ _ _ _ (deref_run _ _ _ Hg)).
  unfold array_at.
  now rewrite (bind_returned _ _ _ _ _
                 (bind_returned _ _ _ _ _ (deref_run _ _ _ Hg))).
Qed.

Lemma image_data_inv w pileup_pattern g w' :
  image_data pileup_pattern w = (Returned g, w') -> w' = w.
Proof.
  unfold image_data. intros H.
  apply bind_inv in H. destruct H as (o & w0 & Ho & H).
  unfold deref in Ho. destruct (heap w !! pileup_pattern); inversion Ho; subst.
  assert (Harr : (a ← array_at pileup_pattern;
                  match a with
                  | Array2 g => ret g
                  | Array1 _ =>
                      emit plt.Gca ;; raise (TypeError "Invalid shape for image data")
                  end) w0 = (Returned g, w') -> w' = w0).
  { clear H. intros H. apply bind_inv in H. destruct H as (a & w1 & Ha & H).
    pose proof (array_at_reads pileup_pattern w0) as Hread.
    rewrite Ha in Hread. simpl in Hread. subst w1.
    destruct a; [discriminate H | now inversion H]. }
  destruct o; try discriminate H; now apply Harr.
Qed.

Lemma py_add_str_inv name suffix file :
  py_add name (PyStr suffix) = Returned file ->
  exists s, name = PyStr s /\ file = PyStr (s ++ suffix).
Proof.
  destruct name; simpl; try discriminate.
  intros H. inversion H. eauto.
Qed.

Lemma pileup_plot_run_iff env pileup_pattern name output w w' :
  pileup_plot env pileup_pattern name output w = (Returned tt, w')
  <-> exists g s,
        image_data pileup_pattern w = (Returned g, w)
        /\ pileup_name name = PyStr s
        /\ writable env (pileup_file output s) = true
        /\ w' = add_calls w (pileup_calls output g s).
Proof.
  unfold pileup_plot. cbv zeta. fold (pileup_name name). split.
  - intros H.
    apply bind_inv in H. destruct H as (g & w0 & Himg & H).
    pose proof (image_data_inv _ _ _ _ Himg) as ->.
    rewrite (bind_returned _ _ _ _ _ (emit_run _ _)) in H.
    rewrite (bind_returned _ _ _ _ _ (emit_run _ _)) in H.
    rewrite (bind_returned _ _ _ _ _ (emit_run _ _)) in H.
    apply bind_inv in H. destruct H as (file & w1 & Hfile & H).
    destruct (py_add (pileup_name name) (PyStr ".pdf")) as [file' |] eqn:Eadd;
      simpl in Hfile; inversion Hfile; subst file' w1.
    destruct (py_add_str_inv _ _ _ Eadd) as (s & Hs & ->).
    rewrite Hs in H. simpl py_str in H.
    erewrite bind_returned in H by reflexivity.
    unfold savefig in H. fold (pileup_file output s) in H.
    exists g, s. rewrite Hs.
    destruct (writable env (pileup_file output s)).
    + rewrite (bind_returned _ _ _ _ _ (emit_run _ _)), emit_run in H.
      rewrite !add_calls_app in H. inversion H.
      repeat split; assumption || reflexivity.
    + erewrite bind_raised in H by reflexivity. discriminate.
  - intros (g & s & Himg & Hs & Hwr & ->).
    rewrite (bind_returned _ _ _ _ _ Himg).
    rewrite (bind_returned _ _ _ _ _ (emit_run _ _)).
    rewrite (bind_returned _ _ _ _ _ (emit_run _ _)).
    rewrite (bind_returned _ _ _ _ _ (emit_run _ _)).
    rewrite Hs. simpl py_add. simpl lift.
    do 2 (erewrite bind_returned by reflexivity).
    unfold savefig. fold (pileup_file output s). rewrite Hwr.
    rewrite (bind_returned _ _ _ _ _ (emit_run _ _)), emit_run.
    rewrite !add_calls_app. reflexivity.
Qed.

(** Given a two-dimensional array, [pileup_plot] returns when [name] is a
    string and the path can be written, having drawn the image under the
    title ["pileup " + name] and saved it as [name + ".pdf"] joined to
    [output]; it returns for no other kind of name and no other path; and
    with a name that is no string it raises at [name + ".pdf"], after the
    image was drawn and with nothing saved or closed. *)
Theorem pileup_plot_outcomes env pileup_pattern name output w g :
  heap w !! pileup_pattern = Some (NDArray (Array2 g)) ->
  (forall s, pileup_name name = PyStr s ->
             writable env (pileup_file output s) = true ->
             pileup_plot env pileup_pattern name output w
             = (Returned tt, add_calls w (pileup_calls output g s)))
  /\ (forall w', pileup_plot env pileup_pattern name output w = (Returned tt, w') ->
                 exists s, pileup_name name = PyStr s
                           /\ writable env (pileup_file output s) = true)
  /\ ((forall s, pileup_name name <> PyStr s) ->
      exists what,
        pileup_plot env pileup_pattern name output w
        = (Raised (TypeError what),
           add_calls w [plt.Imshow g plt.Raw "seismic";
                        plt.Title (PyStr ("pileup " ++ py_str env (pileup_name name)));
                        plt.Colorbar])).
Proof.
  intros Hg. apply image_data_run in Hg. split; [| split].
  - intros s Hs Hwr. apply pileup_plot_run_iff. exists g, s. auto.
  - intros w' H. apply pileup_plot_run_iff in H.
    destruct H as (g' & s & _ & Hs & Hwr & _). eauto.
  - intros Hname. unfold pileup_plot. cbv zeta. fold (pileup_name name).
    rewrite (bind_returned _ _ _ _ _ Hg).
    rewrite (bind_returned _ _ _ _ _ (emit_run _ _)).
    rewrite (bind_returned _ _ _ _ _ (emit_run _ _)).
    rewrite (bind_returned _ _ _ _ _ (emit_run _ _)).
    rewrite !add_calls_app.
    destruct (pileup_name name) as [| n | f | s | p] eqn:E;
      try (eexists; apply bind_raised; reflexivity).
    destruct (Hname s eq_refl).
Qed.

Lemma pileup_plot_outcomes_witness :
  pileup_plot sample_env 3 None (Some "out") sample_world
  = (Returned tt,
     add_calls sample_world
       [plt.Imshow [[0.5; 1.5]; [1.5; 0.5]]%float plt.Raw "seismic";
        plt.Title (PyStr "pileup pileup patterns"); plt.Colorbar;
        plt.Savefig "out/pileup patterns.pdf" (Some "pdf"); plt.Close_all])
  /\ exists what,
      pileup_plot sample_env 3 (Some (PyInt 7)) (Some "out") sample_world
      = (Raised (TypeError what),
         add_calls sample_world
           [plt.Imshow [[0.5; 1.5]; [1.5; 0.5]]%float plt.Raw "seismic";
            plt.Title (PyStr "pileup 7"); plt.Colorbar]).
Proof.
  split.
  - apply (proj1 (pileup_plot_outcomes sample_env 3%nat None (Some "out")
                    sample_world _ eq_refl) "pileup patterns");
      reflexivity.
  - apply (proj2 (proj2 (pileup_plot_outcomes sample_env 3%nat (Some (PyInt 7))
                           (Some "out") sample_world _ eq_refl))).
    intros s. discriminate.
Defined.

Lemma joinpath_rooted dir s :
  pathlib.joinpath dir (pathlib.of_str (String "/" s))
  = pathlib.of_str (String "/" s).
Proof.
  unfold pathlib.joinpath, pathlib.of_str, pathlib.splitroot.
  simpl Ascii.eqb. cbv iota.
  destruct (Nat.eqb _ 2); reflexivity.
Qed.

(** A name that starts with a slash makes [output] irrelevant: the file is
    written where the name says. *)
Theorem pileup_plot_rooted_name env pileup_pattern s output output' w :
  pileup_plot env pileup_pattern (Some (PyStr (String "/" s))) output w
  = pileup_plot env pileup_pattern (Some (PyStr (String "/" s))) output' w
  /\ pileup_file output (String "/" s)
     = pathlib.fspath (pathlib.of_str (String "/" s ++ ".pdf")).
Proof.
  split.
  - unfold pileup_plot. cbv zeta.
    destruct (image_data pileup_pattern w) as [[g | e] w0] eqn:Himg.
    + rewrite !(bind_returned _ _ _ _ _ Himg).
      rewrite !(bind_returned _ _ _ _ _ (emit_run _ _)).
      simpl py_add. simpl lift.
      do 2 (erewrite bind_returned by reflexivity).
      symmetry.
      do 2 (erewrite bind_returned by reflexivity).
      simpl append. now rewrite !joinpath_rooted.
    + now rewrite !(bind_raised _ _ _ _ _ Himg).
  - unfold pileup_file. simpl append. now rewrite joinpath_rooted.
Qed.

(** ** [distance_plot]: labels and pairs *)

Lemma for_each_inv {A} (xs : list A) (body : A -> M unit) w w' :
  for_each xs body w = (Returned tt, w') ->
  Forall (fun x => exists w1 w2, body x w1 = (Returned tt, w2)) xs.
Proof.
  revert w. induction xs as [| x rest IH]; intros w H; [constructor |].
  simpl in H. apply bind_inv in H. destruct H as ([] & w1 & Hx & Hrest).
  constructor; eauto.
Qed.

(** A round of the loop that returns had a label that stands for a path. *)
Lemma distance_body_label env matrix name w w' :
  distance_body env (matrix, name) w = (Returned tt, w') ->
  exists p, label_path name = Some p.
Proof.
  unfold distance_body. cbv zeta. intros H.
  repeat (apply bind_inv in H; destruct H as (? & ? & ? & H)).
  match goal with
  | Hp : Path_of name _ = (Returned _, _) |- _ =>
      destruct name; try discriminate Hp; simpl; eauto
  end.
Qed.

(** [distance_plot] returns only if every label it gets to stands for a
    path, as a string or a path-like object does; with the default labels,
    which are ints, it never returns once there is a matrix. *)
Theorem distance_plot_needs_path_labels env matrices labels w :
  (forall w', distance_plot env matrices labels w = (Returned tt, w') ->
              Forall (fun pair => exists p, label_path pair.2 = Some p)
                (zipped matrices labels))
  /\ (matrix_list_of matrices <> [] -> labels = no_labels ->
      exists e, (distance_plot env matrices labels w).1 = Raised e).
Proof.
  assert (Hall : forall w', distance_plot env matrices labels w = (Returned tt, w') ->
             Forall (fun pair => exists p, label_path pair.2 = Some p)
               (zipped matrices labels)).
  { intros w' H. unfold distance_plot in H. cbv zeta in H.
    apply for_each_inv in H. fold (zipped matrices labels) in H.
    eapply Forall_impl; [exact H |].
    intros [matrix name] (w1 & w2 & Hbody). simpl.
    now apply (distance_body_label env matrix name w1 w2). }
  split; [exact Hall |].
  intros Hne ->.
  destruct (distance_plot env matrices no_labels w) as [[[] | e] w'] eqn:E;
    [| simpl; eauto].
  specialize (Hall w' eq_refl). unfold zipped in Hall.
  destruct (matrix_list_of matrices) as [| m ms]; [congruence |].
  simpl in Hall. inversion Hall as [| ? ? [p Hp] _]. discriminate Hp.
Qed.

(** A call with a string and a path for labels returns; the same call
    with the default labels raises. *)
Lemma distance_plot_needs_path_labels_witness :
  Forall (fun pair => exists p, label_path pair.2 = Some p)
    (zipped (array_list [3; 1]%nat)
       (label_list [PyStr "a"; PyPath (pathlib.of_str "plots/b")]))
  /\ exists e,
      (distance_plot sample_env_injected (array_list [3; 1]%nat) no_labels
         sample_world).1 = Raised e.
Proof.
  split.
  - eapply (proj1 (distance_plot_needs_path_labels sample_env_injected
                     (array_list [3; 1]%nat)
                     (label_list [PyStr "a"; PyPath (pathlib.of_str "plots/b")])
                     sample_world)).
    vm_compute. reflexivity.
  - apply (proj2 (distance_plot_needs_path_labels sample_env_injected
                    (array_list [3; 1]%nat) no_labels sample_world));
      [discriminate | reflexivity].
Defined.

Lemma combine_truncate {A B} (l : list A) (l' : list B) :
  combine l l' = combine (firstn (length l') l) (firstn (length l) l').
Proof.
  revert l'. induction l as [| a l IH]; intros [| b l']; simpl; try reflexivity.
  now rewrite <- IH.
Qed.

(** The loop goes through as many pairs as the shorter of the two lists
    has: matrices without a label and labels without a matrix are passed
    over in silence; a single string labels the first matrix only; and
    with an empty list of labels nothing is done at all. *)
Theorem distance_plot_pairs_up env :
  (forall ms ls,
      distance_plot env (array_list ms) (label_list ls)
      = distance_plot env (array_list (firstn (length ls) ms))
          (label_list (firstn (length ms) ls)))
  /\ (forall m ms s,
         distance_plot env (array_list (m :: ms)) (one_label s)
         = distance_plot env (one_array m) (one_label s))
  /\ (forall matrices w,
         distance_plot env matrices (label_list []) w = (Returned tt, w)).
Proof.
  split; [| split].
  - intros ms ls. unfold distance_plot. cbv zeta. simpl.
    now rewrite (combine_truncate ms ls) at 1.
  - intros m ms s. unfold distance_plot. cbv zeta. simpl.
    now destruct ms.
  - intros matrices w. unfold distance_plot. cbv zeta. simpl.
    now rewrite combine_nil.
Qed.

(** ** [distance_plot]: the files *)

Lemma array_at_inv l w a w' : array_at l w = (Returned a, w') -> w' = w.
Proof.
  intros H. pose proof (array_at_reads l w) as Hread.
  rewrite H in Hread. exact Hread.
Qed.

Lemma zero_nans_calls y w : calls (zero_nans y w).2 = calls w.
Proof.
  unfold zero_nans, deref, mbind, M_bind, bind.
  destruct (heap w !! y) as [[| | a | | | | base sel] |]; simpl; try reflexivity.
  destruct (heap w !! base) as [[| | a | | | |] |]; reflexivity.
Qed.

Lemma plot_xy_inv x y fmt w w' :
  plot_xy x y fmt w = (Returned tt, w') -> w' = add_calls w [plt.Plot_xy x y fmt].
Proof.
  unfold plot_xy. destruct (Nat.eqb (length x) (len y)); intros H; now inversion H.
Qed.

Lemma emit_inv c w w' : emit c w = (Returned tt, w') -> w' = add_calls w [c].
Proof. intros H. now inversion H. Qed.

Lemma savefig_inv env fname format w w' :
  savefig env fname format w = (Returned tt, w') ->
  w' = add_calls w [plt.Savefig fname format].
Proof.
  unfold savefig. destruct (writable env fname); intros H; now inversion H.
Qed.

Lemma Path_of_inv v w p w' :
  Path_of v w = (Returned p, w') -> w' = w /\ label_path v = Some p.
Proof.
  destruct v; simpl; intros H; inversion H; auto.
Qed.

(** A round of the loop that returns, with helpers that draw nothing: it
    has drawn, saved to the file of its label and closed the figures. *)
Lemma distance_body_calls env matrix name w w' :
  quiet_helpers env ->
  distance_body env (matrix, name) w = (Returned tt, w') ->
  exists p cs,
    label_path name = Some p
    /\ Forall is_drawing cs
    /\ calls w' = calls w ++ cs ++ [plt.Savefig (pdf3_at p) (Some "pdf"); plt.Close_all].
Proof.
  intros [Hlaw Hfilter]. unfold distance_body. cbv zeta. intros H.
  apply bind_inv in H. destruct H as (dist & w1 & Hdist & H).
  assert (Hc1 : calls w1 = calls w).
  { unfold call_distance_law in Hdist.
    destruct (utils_distance_law env) as [distance_law |] eqn:E; [| discriminate].
    pose proof (Hlaw distance_law eq_refl matrix w) as Hq.
    now rewrite Hdist in Hq. }
  apply bind_inv in H. destruct H as (d & w2 & Hd & H).
  apply array_at_inv in Hd. subst w2.
  apply bind_inv in H. destruct H as ([] & w3 & Hzero' & H).
  pose proof (zero_nans_calls dist w1) as Hzero.
  rewrite Hzero' in Hzero. simpl in Hzero.
  apply bind_inv in H. destruct H as (y_savgol & w4 & Hsav & H).
  assert (Hc4 : calls w4 = calls w3).
  { unfold call_savgol_filter in Hsav.
    destruct (savgol_filter env) as [f |] eqn:E; [| discriminate].
    pose proof (Hfilter f eq_refl dist 17%Z 5%Z w3) as Hq.
    now rewrite Hsav in Hq. }
  apply bind_inv in H. destruct H as (yv & w5 & Hyv & H).
  apply array_at_inv in Hyv. subst w5.
  apply bind_inv in H. destruct H as ([] & w6 & Hp1 & H).
  apply plot_xy_inv in Hp1.
  apply bind_inv in H. destruct H as ([] & w7 & Hp2 & H). apply emit_inv in Hp2.
  apply bind_inv in H. destruct H as (sv & w8 & Hsv & H).
  apply array_at_inv in Hsv. subst w8.
  apply bind_inv in H. destruct H as ([] & w9 & Hp3 & H). apply plot_xy_inv in Hp3.
  apply bind_inv in H. destruct H as ([] & w10 & He1 & H). apply emit_inv in He1.
  apply bind_inv in H. destruct H as ([] & w11 & He2 & H). apply emit_inv in He2.
  apply bind_inv in H. destruct H as ([] & w12 & He3 & H). apply emit_inv in He3.
  apply bind_inv in H. destruct H as ([] & w13 & He4 & H). apply emit_inv in He4.
  apply bind_inv in H. destruct H as ([] & w14 & He5 & H). apply emit_inv in He5.
  apply bind_inv in H. destruct H as ([] & w15 & He6 & H). apply emit_inv in He6.
  apply bind_inv in H. destruct H as (p & w16 & Hpath & H).
  apply Path_of_inv in Hpath. destruct Hpath as (-> & Hlabel).
  apply bind_inv in H. destruct H as ([] & w17 & Hsave & H).
  apply savefig_inv in Hsave. apply emit_inv in H.
  fold (pdf3_at p) in Hsave.
  exists p. eexists. split; [exact Hlabel |].
  subst. simpl. rewrite Hc4, Hzero, Hc1.
  assert (Hcalls : forall (hist : list plt.call) c1 c2 c3 c4 c5 c6 c7 c8 c9 tail,
             ((((((((((hist ++ [c1]) ++ [c2]) ++ [c3]) ++ [c4]) ++ [c5]) ++ [c6])
                 ++ [c7]) ++ [c8]) ++ [c9]) ++ [tail]) ++ [plt.Close_all]
             = hist ++ [c1; c2; c3; c4; c5; c6; c7; c8; c9] ++ [tail; plt.Close_all]).
  { intros. rewrite <- !app_assoc. reflexivity. }
  rewrite Hcalls. split; [| reflexivity].
  repeat constructor.
Qed.

Lemma written_names_after blocking hist cs fname format :
  Forall is_drawing cs ->
  map fst (plt.written
             (plt.render blocking (hist ++ cs ++ [plt.Savefig fname format; plt.Close_all])))
  = map fst (plt.written (plt.render blocking hist)) ++ [fname].
Proof.
  intros Hd. rewrite (written_after_save_close _ _ _ _ _ Hd).
  now rewrite map_app.
Qed.

Lemma distance_loop_files env pairs w w' :
  quiet_helpers env ->
  for_each pairs (distance_body env) w = (Returned tt, w') ->
  exists paths,
    map label_path (map snd pairs) = map Some paths
    /\ forall blocking,
        map fst (plt.written (plt.render blocking (calls w')))
        = map fst (plt.written (plt.render blocking (calls w)))
          ++ map pdf3_at paths.
Proof.
  intros Hquiet. revert w.
  induction pairs as [| [matrix name] rest IH]; intros w H; simpl in H.
  - inversion H. exists []. split; [reflexivity |].
    intros b. simpl. now rewrite app_nil_r.
  - apply bind_inv in H. destruct H as ([] & w1 & Hbody & Hrest).
    destruct (distance_body_calls env matrix name w w1 Hquiet Hbody)
      as (p & cs & Hp & Hd & Hc).
    destruct (IH w1 Hrest) as (paths & Hpaths & Hfiles).
    exists (p :: paths). split; [simpl; now rewrite Hp, Hpaths |].
    intros b. rewrite (Hfiles b), Hc, (written_names_after _ _ _ _ _ Hd).
    simpl. now rewrite <- app_assoc.
Qed.

Lemma pdf3_file_simple s :
  has_slash s = false -> s <> "" -> s <> "." ->
  pdf3_file s = (s ++ "/.pdf3")%string.
Proof.
  intros Hs Hne Hdot. unfold pdf3_file.
  rewrite (of_str_file s Hs Hne Hdot).
  destruct s; [congruence |]. reflexivity.
Qed.

(** With both names supplied by helpers that draw nothing, a call of
    [distance_plot] that returns has written one file for each pair of a
    matrix and a label, in their order; each label stands for a path, as a
    string or a path-like object does, and its file is the file [.pdf3] in
    that path: for the string [s], in the directory [s]. *)
Theorem distance_plot_files env matrices labels w w' :
  quiet_helpers env ->
  distance_plot env matrices labels w = (Returned tt, w') ->
  exists paths,
    map label_path (map snd (zipped matrices labels)) = map Some paths
    /\ (forall blocking,
           map fst (plt.written (plt.render blocking (calls w')))
           = map fst (plt.written (plt.render blocking (calls w)))
             ++ map pdf3_at paths)
    /\ (forall names,
           map snd (zipped matrices labels) = map PyStr names ->
           map pdf3_at paths = map pdf3_file names
           /\ Forall (fun s => has_slash s = false -> s <> "" -> s <> "." ->
                               pdf3_file s = (s ++ "/.pdf3")%string) names).
Proof.
  intros Hquiet H. unfold distance_plot in H. cbv zeta in H.
  destruct (distance_loop_files env _ w w' Hquiet H) as (paths & Hn & Hf).
  exists paths. split; [exact Hn |]. split; [exact Hf |].
  intros names Hnames. split.
  - fold (zipped matrices labels) in Hn. rewrite Hnames in Hn.
    clear - Hn. revert paths Hn.
    induction names as [| s names IH]; intros [| p paths] Hn;
      try discriminate Hn; [reflexivity |].
    simpl in Hn. inversion Hn; subst p. simpl. f_equal. now apply IH.
  - apply Forall_forall. intros s _. apply pdf3_file_simple.
Qed.

Lemma sample_helpers_quiet : quiet_helpers sample_env_injected.
Proof.
  split.
  - intros distance_law H matrix w. inversion H; subst distance_law.
    unfold sample_distance_law, deref, mbind, M_bind, bind.
    destruct (heap w !! matrix) as [[| csr g | [v | g] | | | |] |]; reflexivity.
  - intros f H y wl po w. inversion H; subst f.
    unfold sample_savgol_filter, mbind, M_bind, bind.
    pose proof (array_at_reads y w) as Hread.
    destruct (array_at y w) as [[a | e] w1]; simpl in Hread; subst w1; reflexivity.
Qed.

(** Two matrices, one labelled by a string and one by a path. *)
Lemma distance_plot_files_witness :
  let labels := label_list [PyStr "a"; PyPath (pathlib.of_str "plots/b")] in
  let w' := (distance_plot sample_env_injected (array_list [3; 1]%nat) labels
               sample_world).2 in
  (forall blocking,
      map fst (plt.written (plt.render blocking (calls w')))
      = ["a/.pdf3"; "plots/b/.pdf3"])
  /\ exists paths,
      map label_path (map snd (zipped (array_list [3; 1]%nat)
                                 (label_list [PyStr "a"; PyStr "b"])))
      = map Some paths
      /\ (forall blocking,
             map fst (plt.written (plt.render blocking
                (calls (distance_plot sample_env_injected (array_list [3; 1]%nat)
                          (label_list [PyStr "a"; PyStr "b"]) sample_world).2)))
             = map fst (plt.written (plt.render blocking (calls sample_world)))
               ++ map pdf3_at paths)
      /\ map pdf3_at paths = map pdf3_file ["a"; "b"].
Proof.
  cbv zeta. split.
  - assert (Hrun :
      distance_plot sample_env_injected (array_list [3; 1]%nat)
        (label_list [PyStr "a"; PyPath (pathlib.of_str "plots/b")]) sample_world
      = (Returned tt,
         (distance_plot sample_env_injected (array_list [3; 1]%nat)
            (label_list [PyStr "a"; PyPath (pathlib.of_str "plots/b")])
            sample_world).2))
      by (vm_compute; reflexivity).
    destruct (distance_plot_files sample_env_injected (array_list [3; 1]%nat)
                (label_list [PyStr "a"; PyPath (pathlib.of_str "plots/b")])
                sample_world _ sample_helpers_quiet Hrun)
      as (paths & Hpaths & Hfiles & _).
    intros blocking. rewrite (Hfiles blocking).
    destruct paths as [| p [| q [| ? ?]]]; try discriminate Hpaths.
    inversion Hpaths; subst p q. reflexivity.
  - assert (Hrun :
      distance_plot sample_env_injected (array_list [3; 1]%nat)
        (label_list [PyStr "a"; PyStr "b"]) sample_world
      = (Returned tt,
         (distance_plot sample_env_injected (array_list [3; 1]%nat)
            (label_list [PyStr "a"; PyStr "b"]) sample_world).2))
      by (vm_compute; reflexivity).
    destruct (distance_plot_files sample_env_injected (array_list [3; 1]%nat)
                (label_list [PyStr "a"; PyStr "b"])
                sample_world _ sample_helpers_quiet Hrun)
      as (paths & Hpaths & Hfiles & Hnames).
    exists paths. split; [exact Hpaths |]. split; [exact Hfiles |].
    apply (Hnames ["a"; "b"]). reflexivity.
Defined.

(** ** [plot_whole_matrix]: the region *)

Lemma py_slice_all {A} (l : list A) : py_slice 0 (Z.of_nat (length l)) l = l.
Proof.
  unfold py_slice. simpl.
  replace (Z.of_nat (length l) <? 0)%Z with false by (symmetry; apply Z.ltb_ge; lia).
  rewrite Z.min_id, Z.min_l by lia. simpl.
  rewrite Z.sub_0_r, Nat2Z.id. apply firstn_all.
Qed.

Lemma slice2_all g :
  rectangular g ->
  slice2 0 (Z.of_nat (length g)) 0 (Z.of_nat (length (hd [] g))) g = g.
Proof.
  intros Hrect. unfold slice2, rectangular in *. rewrite py_slice_all.
  generalize dependent (length (hd [] g)). intros n Hrect.
  induction Hrect as [| row rest Hrow _ IH]; simpl; [reflexivity |].
  rewrite IH, <- Hrow. now rewrite py_slice_all.
Qed.

(** Without [region] a [region2] is ignored and the whole matrix is drawn;
    the overlay then keeps the patterns with [0 < bin1 < rows] and
    [0 < bin2 < columns], so none in row 0 or column 0. *)
Theorem whole_matrix_without_region env mat patterns out region2 :
  plot_whole_matrix env mat patterns out None region2
  = plot_whole_matrix env mat patterns out None None
  /\ forall w m csr g rows,
      import_datashader env = Returned m ->
      heap w !! mat = Some (SparseMatrix csr g) ->
      heap w !! patterns = Some (DataFrame rows) ->
      (forall fname, out = Some fname -> writable env fname = true) ->
      rectangular g ->
      let nrows := Z.of_nat (length g) in
      let ncols := Z.of_nat (length (hd [] g)) in
      let kept := List.filter (in_region 0 nrows 0 ncols) rows in
      (plot_whole_matrix env mat patterns out None region2 w).1 = Returned tt
      /\ calls (plot_whole_matrix env mat patterns out None region2 w).2
         = calls w ++
           [plt.Imshow g plt.Log "Reds";
            plt.Scatter_points (map (fun r => sub64 (bin1 r) 0) kept)
                               (map (fun r => sub64 (bin2 r) 0) kept);
            last_call out]
      /\ (forall r, In r kept ->
                    (0 < bin1 r < nrows)%Z /\ (0 < bin2 r < ncols)%Z)
      /\ ((nrows <= 2 ^ 63)%Z ->
          map (fun r => sub64 (bin1 r) 0) kept = map (fun r => (bin1 r - 0)%Z) kept)
      /\ ((ncols <= 2 ^ 63)%Z ->
          map (fun r => sub64 (bin2 r) 0) kept = map (fun r => (bin2 r - 0)%Z) kept).
Proof.
  split; [now destruct region2 |].
  intros w m csr g rows Himp Hmat Hpat Hout Hrect. cbv zeta.
  pose proof (plot_whole_matrix_run env mat patterns out None region2
                w m csr g rows Himp Hmat Hpat Hout) as Hrun.
  simpl ranges_for in Hrun. cbv beta iota in Hrun. rewrite Hrun.
  unfold whole_matrix_world. simpl. rewrite (slice2_all g Hrect).
  split; [reflexivity |]. split; [reflexivity |].
  assert (Hkept : forall r,
            In r (List.filter
                    (in_region 0 (Z.of_nat (length g)) 0
                       (Z.of_nat (length (hd [] g)))) rows) ->
            (0 < bin1 r < Z.of_nat (length g))%Z
            /\ (0 < bin2 r < Z.of_nat (length (hd [] g)))%Z).
  { intros r Hr. apply filter_In in Hr. destruct Hr as [_ Hr].
    now apply in_region_spec in Hr. }
  split; [exact Hkept |].
  split;
    [intros Hlen; apply (sub64_inside _ bin1 0 (Z.of_nat (length g)))
    | intros Hlen; apply (sub64_inside _ bin2 0 (Z.of_nat (length (hd [] g))))];
    try lia; intros r Hr; apply Hkept in Hr; tauto.
Qed.

Lemma whole_matrix_without_region_witness :
  let r := plot_whole_matrix sample_env 1 4 None None (Some (1, 2)%Z) sample_world in
  r.1 = Returned tt
  /\ calls r.2
     = [plt.Imshow sample_matrix plt.Log "Reds";
        plt.Scatter_points [1; 1]%Z [1; 2]%Z; plt.Show].
Proof.
  cbv zeta.
  destruct (proj2 (whole_matrix_without_region sample_env 1%nat 4%nat None
                     (Some (1, 2)%Z))
              sample_world (PyModule "datashader") true sample_matrix sample_table
              eq_refl eq_refl eq_refl ltac:(discriminate)
              ltac:(repeat constructor))
    as (Hret & Hcalls & _).
  split; [exact Hret | exact Hcalls].
Defined.



(** A region that starts far below the first bin: the abscissa of a pattern
    in bin 0 is the highest [int64], and that of a pattern in bin 1 wraps
    around to the lowest. *)
Example overlay_wraps_around :
  calls (plot_whole_matrix sample_env 1 4 None
           (Some (-9223372036854775807, 3)%Z) (Some (0, 3)%Z) sample_world).2
  = [plt.Imshow sample_matrix plt.Log "Reds";
     plt.Scatter_points
       [9223372036854775807; -9223372036854775808; -9223372036854775808]%Z
       [1; 1; 2]%Z;
     plt.Show].
Proof. vm_compute. reflexivity. Qed.

Lemma py_slice_lookup {A} (l : list A) (s e : Z) (i : nat) x :
  (0 <= s)%Z -> (s + Z.of_nat i < e)%Z ->
  l !! (Z.to_nat s + i)%nat = Some x ->
  py_slice s e l !! i = Some x.
Proof.
  intros Hs He Hx. pose proof (lookup_lt_Some _ _ _ Hx) as Hlt.
  unfold py_slice.
  replace (s <? 0)%Z with false by (symmetry; apply Z.ltb_ge; lia).
  replace (e <? 0)%Z with false by (symmetry; apply Z.ltb_ge; lia).
  rewrite lookup_take_lt by lia.
  rewrite lookup_drop.
  replace (Z.to_nat (Z.min s (Z.of_nat (length l)))) with (Z.to_nat s) by lia.
  exact Hx.
Qed.

(** For a region that starts at non-negative bins, the coordinates a kept
    pattern is drawn at are, in the slice, the indices of the cell the
    pattern has in the matrix. *)
Theorem overlay_matches_slice (g : grid) s1 e1 s2 e2 r x :
  (0 <= s1)%Z -> (0 <= s2)%Z ->
  in_region s1 e1 s2 e2 r = true ->
  cell g (Z.to_nat (bin1 r)) (Z.to_nat (bin2 r)) = Some x ->
  cell (slice2 s1 e1 s2 e2 g)
    (Z.to_nat (bin1 r - s1)) (Z.to_nat (bin2 r - s2)) = Some x.
Proof.
  intros H1 H2 Hr Hx. apply in_region_spec in Hr.
  unfold cell in *.
  destruct (g !! Z.to_nat (bin1 r)) as [row |] eqn:Hrow; [| discriminate].
  unfold slice2. rewrite lookup_map.
  rewrite (py_slice_lookup g s1 e1 _ row); simpl; try lia.
  - apply py_slice_lookup; try lia.
    replace (Z.to_nat s2 + Z.to_nat (bin2 r - s2))%nat with (Z.to_nat (bin2 r)) by lia.
    exact Hx.
  - replace (Z.to_nat s1 + Z.to_nat (bin1 r - s1))%nat with (Z.to_nat (bin1 r)) by lia.
    exact Hrow.
Qed.

Lemma overlay_matches_slice_witness :
  cell (slice2 0 3 1 3 sample_matrix) (Z.to_nat (1 - 0)) (Z.to_nat (2 - 1))
  = Some 2%float.
Proof.
  apply (overlay_matches_slice sample_matrix 0 3 1 3
           {| bin1 := 1; bin2 := 2; score := 0.25 |} 2%float);
    (lia || reflexivity).
Defined.

(** ** [plot_whole_matrix]: the file and the screen *)





(** ** [_check_datashader]: the other cases *)

(** When datashader can be imported, the decorated function binds [ds] to
    it and then does what the function does; an exception of the import
    that is no [ImportError] passes through without a line printed; and
    decorating twice is decorating once. *)
Theorem check_datashader_transparent {A B} env (fun_ : pyfunction A B) args w :
  (forall m, import_datashader env = Returned m ->
             fn_call (_check_datashader env fun_) args w
             = fn_call fun_ args (with_ds w m))
  /\ (forall e, import_datashader env = Raised e -> is_ImportError e = false ->
                fn_call (_check_datashader env fun_) args w = (Raised e, w))
  /\ fn_call (_check_datashader env (_check_datashader env fun_)) args w
     = fn_call (_check_datashader env fun_) args w
  /\ fn_name (_check_datashader env (_check_datashader env fun_)) = fn_name fun_.
Proof.
  split; [| split; [| split]]; simpl; unfold wrapped; simpl; unfold wrapped, try_import.
  - intros m ->. reflexivity.
  - intros e -> ->. reflexivity.
  - destruct (import_datashader env) as [m | e]; [reflexivity |].
    destruct (is_ImportError e); reflexivity.
  - reflexivity.
Qed.

Lemma check_datashader_transparent_witness :
  plot_whole_matrix sample_env 1 4 None None None sample_world
  = plot_whole_matrix_fun sample_env (1%nat, 4%nat, None, None, None)
      (with_ds sample_world (PyModule "datashader")).
Proof.
  apply (proj1 (check_datashader_transparent sample_env
                  {| fn_name := "plot_whole_matrix";
                     fn_call := plot_whole_matrix_fun sample_env |}
                  (1%nat, 4%nat, None, None, None) sample_world)
           (PyModule "datashader") eq_refl).
Defined.
